(** * Monster: the concealment and combat rules, embedded from the Python source

    The development follows [gamerules/hiding.py] and
    [typeclasses/characters.py].  Game objects live in a store indexed by
    their database id; the rules are written in a small state-and-exception
    monad [Py] that threads the store, the random source and the messages
    delivered so far, and that can raise the Python exceptions the rules can
    run into. *)

From Stdlib Require Import Ascii.
From stdpp Require Import base numbers option list strings pretty gmap.

Local Open Scope string_scope.
Local Open Scope list_scope.
Local Open Scope Z_scope.

(** ** Game objects *)

(** Objects are compared by identity in the source ([obj != hider],
    [picked != searcher]); identity is the database id. *)
Abbreviation ObjId := nat.

(** Modelled from the spec: [gamerules/room_kind.py] is imported by
    [hiding.py] but is not part of the sources; the spec lists the three
    concealment policies of a location. *)
Inductive RoomKind := NORMAL | NO_HIDE | HARD_TO_HIDE.

#[global] Instance RoomKind_eq_dec : EqDecision RoomKind.
Proof. solve_decision. Defined.

(** One record for every framework object, room or actor, as in the
    framework: attributes an object does not use keep their default.  The
    method [level()], which [hide] calls on the hider, is not defined by the
    class in the sources; its value is taken as given with the object.  The
    concealment level [ndb.hiding] is an integer from the start, 0 on
    spawn, as the data model has it. *)
Record Obj := mkObj {
  key          : string;        (* obj.key *)
  is_character : bool;          (* obj.is_typeclass("typeclasses.characters.Character") *)
  location     : ObjId;         (* obj.location *)
  contents     : list ObjId;    (* obj.contents *)
  room_kind    : RoomKind;      (* obj.db.room_kind *)
  health       : Z;             (* obj.db.health *)
  hiding       : Z;             (* obj.ndb.hiding *)
  level        : Z;             (* obj.level() *)
}.

Definition set_health (h : Z) (o : Obj) : Obj :=
  mkObj (key o) (is_character o) (location o) (contents o) (room_kind o)
        h (hiding o) (level o).

Definition set_hiding (h : Z) (o : Obj) : Obj :=
  mkObj (key o) (is_character o) (location o) (contents o) (room_kind o)
        (health o) h (level o).

#[global] Instance Obj_inhabited : Inhabited Obj :=
  populate (mkObj "" false 0%nat [] NORMAL 0 0 0).

(** ** The interpreter state and the [Py] monad *)

Record World := mkWorld {
  objs   : gmap nat Obj;            (* the object store *)
  tape   : nat -> Z;                (* the random source: raw draws *)
  drawn  : nat;                     (* how many draws were consumed *)
  outbox : list (ObjId * string);   (* messages delivered, oldest first *)
}.

Inductive exn :=
  | NameError (name : string)
  | IndexError.

Inductive outcome (A : Type) :=
  | Return (a : A)
  | Raise (e : exn).
Arguments Return {A} a.
Arguments Raise {A} e.

Definition Py (A : Type) : Type := World -> outcome A * World.

Definition ret {A} (a : A) : Py A := fun w => (Return a, w).

Definition bind {A B} (c : Py A) (k : A -> Py B) : Py B :=
  fun w => match c w with
           | (Return a, w') => k a w'
           | (Raise e, w') => (Raise e, w')
           end.

Definition raise {A} (e : exn) : Py A := fun w => (Raise e, w).

Declare Scope py_scope.
Delimit Scope py_scope with py.
Notation "'do' x <- c ; k" := (bind c (fun x => k))
  (at level 10, x name, c at level 99, k at level 200) : py_scope.
Notation "c ;; k" := (bind c (fun _ => k))
  (at level 100, k at level 200, right associativity) : py_scope.
Local Open Scope py_scope.

(** Reading and changing the world. *)
Definition gets {A} (f : World -> A) : Py A := fun w => (Return (f w), w).

Definition modify (f : World -> World) : Py unit := fun w => (Return tt, f w).

(** Attribute reads and writes on the store. *)
Definition get_obj (o : ObjId) : Py Obj := gets (fun w => objs w !!! o).

Definition update_obj (o : ObjId) (f : Obj -> Obj) : Py unit :=
  fun w => (Return tt,
            mkWorld (<[o := f (objs w !!! o)]> (objs w)) (tape w) (drawn w) (outbox w)).

(** [obj.msg(text)]: fire-and-forget delivery. *)
Definition msg (o : ObjId) (text : string) : Py unit :=
  fun w => (Return tt,
            mkWorld (objs w) (tape w) (drawn w) (outbox w ++ [(o, text)])).

Definition recipients (cs exclude : list ObjId) : list ObjId :=
  filter (fun o => o ∉ exclude) cs.

(** [room.msg_contents(text, exclude=...)]: every object in the room that is
    not excluded gets the text. *)
Definition msg_contents (room : ObjId) (text : string) (exclude : list ObjId) : Py unit :=
  fun w => (Return tt,
            mkWorld (objs w) (tape w) (drawn w)
                    (outbox w ++ map (fun o => (o, text))
                                     (recipients (contents (objs w !!! room)) exclude))).

(** ** The random source *)

Definition draw : Py Z :=
  fun w => (Return (tape w (drawn w)),
            mkWorld (objs w) (tape w) (S (drawn w)) (outbox w)).

(** [random.randint(a, b)]: an integer of the inclusive range [a..b]. *)
Definition randint (a b : Z) : Py Z :=
  do d <- draw; ret (a + d mod (b - a + 1)).

(** [random.choice(seq)]: raises [IndexError] on an empty sequence. *)
Definition choice (seq : list ObjId) : Py ObjId :=
  match seq with
  | [] => raise IndexError
  | x :: _ => do d <- draw;
              ret (nth (Z.to_nat (d mod Z.of_nat (length seq))) seq x)
  end.

(** The value the [i]-th coming call of the random source returns when it is
    a [randint a b]. *)
Definition roll_at (w : World) (i : nat) (a b : Z) : Z :=
  a + tape w (drawn w + i)%nat mod (b - a + 1).

(** ** typeclasses/characters.py *)

(** Names bound at module level in [typeclasses/characters.py]: its three
    imports and the class it defines. *)
Definition characters_py : list string :=
  ["DefaultCharacter"; "cmdhandler"; "target_msg"; "Character"].

(** Python's built-in functions, which every module falls back on. *)
Definition builtins : list string :=
  ["abs"; "aiter"; "all"; "anext"; "any"; "ascii"; "bin"; "bool";
   "breakpoint"; "bytearray"; "bytes"; "callable"; "chr"; "classmethod";
   "compile"; "complex"; "delattr"; "dict"; "dir"; "divmod"; "enumerate";
   "eval"; "exec"; "filter"; "float"; "format"; "frozenset"; "getattr";
   "globals"; "hasattr"; "hash"; "help"; "hex"; "id"; "input"; "int";
   "isinstance"; "issubclass"; "iter"; "len"; "list"; "locals"; "map";
   "max"; "memoryview"; "min"; "next"; "object"; "oct"; "open"; "ord";
   "pow"; "print"; "property"; "range"; "repr"; "reversed"; "round"; "set";
   "setattr"; "slice"; "sorted"; "staticmethod"; "str"; "sum"; "super";
   "tuple"; "type"; "vars"; "zip"; "__import__"].

(** Reading a free name of a function body: the module's globals, then the
    built-ins, and [NameError] when neither binds it. *)
Definition load_global (globals : list string) (name : string) : Py unit :=
  if bool_decide (name ∈ globals ++ builtins) then ret tt
  else raise (NameError name).

(** [Character.health_msg]: the condition of [self] as others see it. *)
Definition health_msg (self : Obj) : string :=
  let health := health self in
  if bool_decide (health >= 1700) then key self +:+ " is in ultimate health."
  else if bool_decide (health > 1400) then key self +:+ " is in incredible health."
  else if bool_decide (health > 1200) then key self +:+ " is in extraordinary health."
  else if bool_decide (health > 1000) then key self +:+ " is in tremendous health."
  else if bool_decide (health > 850) then key self +:+ " is in superior condition."
  else if bool_decide (health > 700) then key self +:+ " is in exceptional health."
  else if bool_decide (health > 500) then key self +:+ " is in good health."
  else if bool_decide (health > 350) then key self +:+ " looks a little bit dazed."
  else if bool_decide (health > 200) then key self +:+ " has some minor wounds."
  else if bool_decide (health > 100) then key self +:+ " is suffering from some serious wounds."
  else if bool_decide (health > 50) then key self +:+ " is in critical condition."
  else if bool_decide (health > 1) then key self +:+ " is near death."
  else key self +:+ " is dead.".

(** [Character.self_health_msg]: the same tiers, told to [self]. *)
Definition self_health_msg (self : Obj) : string :=
  let health := health self in
  if bool_decide (health >= 1700) then "You are in ultimate health."
  else if bool_decide (health > 1400) then "You are in incredible health."
  else if bool_decide (health > 1200) then "You are in extraordinary health."
  else if bool_decide (health > 1000) then "You are in tremendous health."
  else if bool_decide (health > 850) then "You are in superior condition."
  else if bool_decide (health > 700) then "You are in exceptional health."
  else if bool_decide (health > 500) then "You are in good health."
  else if bool_decide (health > 350) then "You feel a little bit dazed."
  else if bool_decide (health > 200) then "You have some minor cuts and abrasions."
  else if bool_decide (health > 100) then "You are suffering from some serious wounds."
  else if bool_decide (health > 50) then "You are in critical condition."
  else if bool_decide (health > 1) then "You are near death."
  else "You are dead.".

Section Character.
(** The module whose code runs, given by the names it binds. *)
Variable globals : list string.

(** Collaborators that live outside the sources: the combat-message
    formatter of [commands/combat.py], and the framework's global object
    lookup and move. *)
Variable target_msg : string -> string -> Z -> string.
Variable search_object : string -> gmap nat Obj -> list ObjId.
Variable move_to : ObjId -> list ObjId -> World -> World.

(** [Character.die] *)
Definition die (self : ObjId) : Py unit :=
  load_global globals "search_object" ;;
  do the_void <- gets (fun w => search_object "Limbo" (objs w));
  (if bool_decide (the_void ≠ [])
   then modify (move_to self the_void)
   else ret tt) ;;
  update_obj self (set_health 200).

(** [Character.at_weapon_hit] *)
Definition at_weapon_hit (self attacker weapon : ObjId) (damage : Z) : Py unit :=
  load_global globals "target_msg" ;;
  do a <- get_obj attacker;
  do wpn <- get_obj weapon;
  msg self (target_msg (key a) (key wpn) damage) ;;
  load_global globals "max" ;;
  do me <- get_obj self;
  update_obj self (set_health (Z.max (health me - damage) 0)) ;;
  do me <- get_obj self;
  msg self (self_health_msg me) ;;
  msg_contents (location me) (health_msg me) [self] ;;
  do me <- get_obj self;
  if bool_decide (health me <= 0) then die self else ret tt.

(** A caller delivering hits to [self] one after the other, each from the
    world the previous one left, whether it returned or raised: the worlds
    after each call. *)
Fixpoint hit_trace (self : ObjId) (hits : list (ObjId * ObjId * Z))
    (w : World) : list World :=
  match hits with
  | [] => []
  | (attacker, weapon, damage) :: rest =>
      let w' := (at_weapon_hit self attacker weapon damage w).2 in
      w' :: hit_trace self rest w'
  end.
End Character.

(** The thirteen condition tiers of the two message functions, worst
    first, and the rank of a message in such a table. *)
Definition self_tiers : list string :=
  ["You are dead."; "You are near death."; "You are in critical condition.";
   "You are suffering from some serious wounds.";
   "You have some minor cuts and abrasions."; "You feel a little bit dazed.";
   "You are in good health."; "You are in exceptional health.";
   "You are in superior condition."; "You are in tremendous health.";
   "You are in extraordinary health."; "You are in incredible health.";
   "You are in ultimate health."].

Definition third_person_tiers (name : string) : list string :=
  map (String.append name)
    [" is dead."; " is near death."; " is in critical condition.";
     " is suffering from some serious wounds."; " has some minor wounds.";
     " looks a little bit dazed."; " is in good health.";
     " is in exceptional health."; " is in superior condition.";
     " is in tremendous health."; " is in extraordinary health.";
     " is in incredible health."; " is in ultimate health."].

Fixpoint tier_index (table : list string) (m : string) : option nat :=
  match table with
  | [] => None
  | t :: rest => if bool_decide (m = t) then Some 0%nat
                 else S <$> tier_index rest m
  end.

(** The number of the tier a health value falls in, from 0 (dead) to 12
    (ultimate health). *)
Definition tier_of_health (h : Z) : nat :=
  if bool_decide (h >= 1700) then 12
  else if bool_decide (h > 1400) then 11
  else if bool_decide (h > 1200) then 10
  else if bool_decide (h > 1000) then 9
  else if bool_decide (h > 850) then 8
  else if bool_decide (h > 700) then 7
  else if bool_decide (h > 500) then 6
  else if bool_decide (h > 350) then 5
  else if bool_decide (h > 200) then 4
  else if bool_decide (h > 100) then 3
  else if bool_decide (h > 50) then 2
  else if bool_decide (h > 1) then 1
  else 0.

(** ** gamerules/hiding.py *)

Definition MAX_HIDE : Z := 15.

(** Modelled from the spec: [Character.is_hiding] is called by
    [reveal_people] but the class in the sources does not define it; the
    spec reads it as "is currently concealed", a concealment level above 0. *)
Definition is_hiding (o : Obj) : bool := bool_decide (hiding o > 0).

(** The loop of [num_unhidden_others], with its counter [num]. *)
Fixpoint count_others (store : gmap nat Obj) (hider : ObjId)
    (cs : list ObjId) (num : Z) : Z :=
  match cs with
  | [] => num
  | obj :: rest =>
      if is_character (store !!! obj) && bool_decide (obj ≠ hider)
      then count_others store hider rest (num + 1)
      else count_others store hider rest num
  end.

Definition num_unhidden_others (room hider : ObjId) : Py Z :=
  gets (fun w => count_others (objs w) hider (contents (objs w !!! room)) 0).

Definition hide (hider : ObjId) : Py unit :=
  do h <- get_obj hider;
  let room := location h in
  do r <- get_obj room;
  if bool_decide (room_kind r = NO_HIDE) then
    msg hider "There is no room to hide here."
  else
  do unlucky <- (if bool_decide (room_kind r = HARD_TO_HIDE)
                 then do roll <- randint 0 100; ret (bool_decide (roll > 20))
                 else ret false);
  if (unlucky : bool) then
    msg hider "You couldn't find a place to hide."
  else
  do others <- num_unhidden_others room hider;
  if bool_decide (others > 0) then
    if bool_decide (hiding h > 0)
    then msg hider "You can't hide any better with people in the room."
    else msg hider "You can't hide when people are watching you."
  else
  do roll <- randint 0 100;
  if bool_decide (roll < 25) then
    if bool_decide (hiding h > 0)
    then msg hider "You could not find a better hiding place."
    else msg hider "You could not find a good hiding place."
  else
  if bool_decide (hiding h > level h) then
    msg hider "You're pretty well hidden now.  I don't think you could be any less visible."
  else
  update_obj hider (set_hiding (hiding h + 1)) ;;
  do h <- get_obj hider;
  if bool_decide (hiding h > 1)
  then msg hider "You've managed to hide yourself a little better."
  else msg hider "You've hidden yourself from view.".

Definition reveal (hider : ObjId) : Py unit :=
  do h <- get_obj hider;
  if bool_decide (hiding h = 0) then
    msg hider "You were not hiding."
  else
  update_obj hider (set_hiding 0) ;;
  msg hider "You are no longer hiding." ;;
  do h <- get_obj hider;
  msg_contents (location h) (key h +:+ " has stepped out of the shadows.") [hider].

(** The [for retry in range(0, 7)] loop of [reveal_people], by the number of
    retries left. *)
Fixpoint reveal_people_loop (retries : nat) (searcher : ObjId)
    (characters : list ObjId) : Py bool :=
  match retries with
  | O => ret false
  | S retries' =>
      do picked <- choice characters;
      do p <- get_obj picked;
      do lucky <- (if bool_decide (picked ≠ searcher) && is_hiding p
                   then do roll <- randint 0 MAX_HIDE;
                        ret (bool_decide (roll > hiding p))
                   else ret false);
      if (lucky : bool) then
        update_obj picked (set_hiding 0) ;;
        do s <- get_obj searcher;
        do p <- get_obj picked;
        msg searcher ("You've found " +:+ key p +:+ " hiding in the shadows!") ;;
        msg picked ("You've been discovered by " +:+ key s) ;;
        msg_contents (location s)
          (key s +:+ " has found " +:+ key p +:+ " hiding in the shadows!")
          [searcher] ;;
        ret true
      else reveal_people_loop retries' searcher characters
  end.

Definition reveal_people (searcher : ObjId) : Py bool :=
  do s <- get_obj searcher;
  do room <- get_obj (location s);
  do characters <- gets (fun w =>
    filter (fun x => is_character (objs w !!! x)) (contents room));
  reveal_people_loop 7 searcher characters.

(** The three branches of [search], named as its comments name them. *)
Inductive category := RevealObjects | RevealExits | RevealPeople.

Definition search_category (rand : Z) : category :=
  if bool_decide (rand < 20) then RevealObjects
  else if bool_decide (rand < 40) then RevealExits
  else RevealPeople.

Definition search (searcher : ObjId) : Py unit :=
  do s <- get_obj searcher;
  msg_contents (location s) (key s +:+ " seems to be looking for something.")
    [searcher] ;;
  do rand <- randint 0 100;
  do found <- match search_category rand with
              | RevealObjects => ret false
              | RevealExits => ret false
              | RevealPeople => reveal_people searcher
              end;
  if negb found then msg searcher "You haven't found anything." else ret tt.

(** The checks of [hide] that come before its cap check all let the hider
    through: the room is not a no-hide room, a hard-to-hide room is passed
    with a roll of at most 20, nobody else of the [Character] kind is in the
    room, and the roll for the hiding place is at least 25. *)
Definition passes_hide_checks (hider : ObjId) (w : World) : Prop :=
  let h := objs w !!! hider in
  let r := objs w !!! location h in
  count_others (objs w) hider (contents r) 0 = 0 /\
  ((room_kind r = NORMAL /\ 25 <= roll_at w 0 0 100) \/
   (room_kind r = HARD_TO_HIDE /\ roll_at w 0 0 100 <= 20 /\
    25 <= roll_at w 1 0 100)).

(** The world [search] has reached when its branch starts: the room has seen
    the searcher look around, and the category roll is drawn. *)
Definition search_started (searcher : ObjId) (w : World) : World :=
  let s := objs w !!! searcher in
  mkWorld (objs w) (tape w) (S (drawn w))
    (outbox w ++ map (fun o => (o, key s +:+ " seems to be looking for something."))
                     (recipients (contents (objs w !!! location s)) [searcher])).

(** The world after the searcher is told that nothing was found. *)
Definition told_nothing (searcher : ObjId) (w : World) : World :=
  mkWorld (objs w) (tape w) (drawn w)
    (outbox w ++ [(searcher, "You haven't found anything.")]).

(** ** utils/evennia_object_prototype_generator.py, utils/build_generator.py

    The text helpers of the two generator scripts.  Strings are sequences of
    characters; the functions that look at the case of letters or at white
    space are embedded for ASCII text, where [str.upper] touches the letters
    a to z only and [str.strip] removes the characters 9 to 13 and 28 to
    32. *)

Definition dquote : ascii := "034"%char.
Definition backslash : ascii := "092"%char.

(** [escaped(s)]: [s.replace] of every double quote by a backslash and a
    double quote. *)
Fixpoint escaped (s : string) : string :=
  match s with
  | EmptyString => EmptyString
  | String c rest =>
      if Ascii.eqb c dquote
      then String backslash (String dquote (escaped rest))
      else String c (escaped rest)
  end.

(** [sep.join(parts)] *)
Fixpoint join (sep : string) (parts : list string) : string :=
  match parts with
  | [] => ""
  | [part] => part
  | part :: rest => part +:+ sep +:+ join sep rest
  end.

(** [lookup_description(id, descs, lines)], with each entry of [descs]
    given by its ['lines'] and each entry of [lines] by its ['line'];
    [None] is Python's [None]. *)
Definition lookup_description (id : Z) (descs : list (list string))
    (lines : list string) : option string :=
  if bool_decide (id = 0) then None
  else if bool_decide (id > 0) then
    let desc_idx := id - 1 in
    if bool_decide (desc_idx < Z.of_nat (length descs))
    then (fun d => escaped (join " " d)) <$> descs !! Z.to_nat desc_idx
    else None
  else if bool_decide (id < 0) then
    let line_idx := - id - 1 in
    if bool_decide (line_idx < Z.of_nat (length lines))
    then escaped <$> lines !! Z.to_nat line_idx
    else None
  else None.

(** An entry of [objects.json], by the keys the scripts read. *)
Record ObjectEntry := mkObjectEntry {
  entry_id : Z;          (* obj['id'] *)
  obj_name : string;     (* obj['obj_name'] *)
}.

(** [find_object(objects, obj_id)] *)
Fixpoint find_object (objects : list ObjectEntry) (obj_id : Z)
    : option ObjectEntry :=
  match objects with
  | [] => None
  | obj :: rest =>
      if bool_decide (entry_id obj = obj_id) then Some obj
      else find_object rest obj_id
  end.

(** [str.isspace], [str.upper] and [str.strip] on ASCII text. *)
Definition isspace (c : ascii) : bool :=
  let n := nat_of_ascii c in
  ((9 <=? n) && (n <=? 13) || (28 <=? n) && (n <=? 32))%nat.

Definition upper (c : ascii) : ascii :=
  let n := nat_of_ascii c in
  if ((97 <=? n) && (n <=? 122))%nat then ascii_of_nat (n - 32) else c.

Fixpoint lstrip (s : string) : string :=
  match s with
  | EmptyString => EmptyString
  | String c rest => if isspace c then lstrip rest else s
  end.

Fixpoint rstrip (s : string) : string :=
  match s with
  | EmptyString => EmptyString
  | String c rest =>
      match rstrip rest with
      | EmptyString => if isspace c then EmptyString else String c EmptyString
      | kept => String c kept
      end
  end.

Definition strip (s : string) : string := rstrip (lstrip s).

(** The loop of [snake_case] over the stripped name. *)
Fixpoint snake_chars (s : string) : string :=
  match s with
  | EmptyString => EmptyString
  | String c rest =>
      if Ascii.eqb c " " || Ascii.eqb c "-" then String "_" (snake_chars rest)
      else if Ascii.eqb c "'" then snake_chars rest
      else String (upper c) (snake_chars rest)
  end.

Definition snake_case (s : string) : string := snake_chars (strip s).

Definition then_prepend (c : ascii) (r : outcome string) : outcome string :=
  match r with
  | Return t => Return (String c t)
  | Raise e => Raise e
  end.

(** The [while] loop of [camel_case] from index 1 on, on what is left of
    the name at [idx]: it stops when [idx] has reached the length, and
    [s[idx+1]] raises [IndexError] when a space is the last character. *)
Fixpoint camel_rest (s : string) : outcome string :=
  match s with
  | EmptyString => Return EmptyString
  | String c rest =>
      if Ascii.eqb c " " then
        match rest with
        | EmptyString => Raise IndexError
        | String d rest' => then_prepend (upper d) (camel_rest rest')
        end
      else if Ascii.eqb c "'" then camel_rest rest
      else then_prepend c (camel_rest rest)
  end.

(** [camel_case(s)]: the first pass of the loop reads [s[0]], which raises
    [IndexError] on an empty name, and appends it in upper case. *)
Definition camel_case (s : string) : outcome string :=
  match strip s with
  | EmptyString => Raise IndexError
  | String c rest => then_prepend (upper c) (camel_rest rest)
  end.

(** ** typeclasses/objects.py: [Gold] *)

(** A bag of gold: [db.amount], [db.desc], and whether [delete()] was
    called on it. *)
Record Gold := mkGold {
  amount  : Z;
  desc    : string;
  deleted : bool;
}.

#[global] Instance Gold_inhabited : Inhabited Gold := populate (mkGold 0 "" false).





(** The number of double quotes of a text, the sum of the amounts of some
    bags of gold, and ASCII text. *)
Fixpoint count_dquotes (s : string) : nat :=
  match s with
  | EmptyString => 0%nat
  | String c rest =>
      if Ascii.eqb c dquote then S (count_dquotes rest) else count_dquotes rest
  end.


(** The characters [snake_case] is meant to get rid of: the space, the
    hyphen, the apostrophe and the letters a to z; and whether a text ends
    with a space. *)
Definition not_snake (c : ascii) : bool :=
  Ascii.eqb c " " || Ascii.eqb c "-" || Ascii.eqb c "'"
  || ((97 <=? nat_of_ascii c) && (nat_of_ascii c <=? 122))%nat.

Fixpoint ends_with_space (s : string) : bool :=
  match s with
  | EmptyString => false
  | String c EmptyString => Ascii.eqb c " "
  | String _ rest => ends_with_space rest
  end.

Definition ascii_text (s : string) : Prop :=
  Forall (fun c => (nat_of_ascii c < 128)%nat) (String.list_ascii_of_string s).

(** ** Sample worlds *)

Definition tape_of (draws : list Z) : nat -> Z := fun i => nth i draws 0.

Definition world (store : gmap nat Obj) (draws : list Z) : World :=
  mkWorld store (tape_of draws) 0 [].

(** A [Character], a [Mob] of [typeclasses/objects.py] (an [Object], not a
    [Character]), and a room with its occupants. *)
Definition character (name : string) (room : ObjId) (hp hid lvl : Z) : Obj :=
  mkObj name true room [] NORMAL hp hid lvl.

Definition mob (name : string) (room : ObjId) : Obj :=
  mkObj name false room [] NORMAL 1000 0 0.

Definition room_of (kind : RoomKind) (occupants : list ObjId) : Obj :=
  mkObj "Cave" false 0%nat occupants kind 0 0 0.

Definition sample_target_msg (attacker weapon : string) (damage : Z) : string :=
  attacker +:+ " hits you with a " +:+ weapon +:+ ".".

Definition no_match (name : string) (store : gmap nat Obj) : list ObjId := [].

Definition stay (self : ObjId) (dest : list ObjId) (w : World) : World := w.

(** Room 0 with Ann (1) and Bob (2), and Ann's sword (3) in her hands. *)
Definition duel (ann_hp bob_hp : Z) : gmap nat Obj :=
  <[0%nat := room_of NORMAL [1; 2]%nat]>
  (<[1%nat := character "Ann" 0 ann_hp 0 3]>
  (<[2%nat := character "Bob" 0 bob_hp 0 3]>
  (<[3%nat := mkObj "sword" false 1%nat [] NORMAL 0 0 0]> ∅))).

(** A rat, which is a [Mob], alone in room 0. *)
Definition rat_den : gmap nat Obj :=
  <[0%nat := room_of NORMAL [5]%nat]> (<[5%nat := mob "rat" 0]> ∅).

Definition arena : World := world (duel 1000 1000) [].

(** Bob at health 40. *)
Definition wounded_bob : World := world (duel 1000 40) [].

(** Bob hidden at concealment [hid] with level [lvl], Ann in the room. *)
Definition bob_hidden (hid lvl : Z) (draws : list Z) : World :=
  world (<[2%nat := character "Bob" 0 1000 hid lvl]> (duel 1000 1000)) draws.

(** Ann and Bob in a room where nobody can hide. *)
Definition no_hide_cave : World :=
  world (<[0%nat := room_of NO_HIDE [1; 2]%nat]> (duel 1000 1000)) [].

(** Ann alone, level 3, hidden at 4; the next roll is 60. *)
Definition ann_alone : World :=
  world (<[0%nat := room_of NORMAL [1]%nat]>
         (<[1%nat := character "Ann" 0 1000 4 3]> ∅)) [60].

Definition rat_world : World := world rat_den [50].

(** A category roll of 50, then seven picks of the second candidate, each
    with a discovery roll of 15. *)
Definition seven_tries : list Z :=
  [50; 1; 15; 1; 15; 1; 15; 1; 15; 1; 15; 1; 15; 1; 15].


(** Ann hits Bob three times with her sword. *)
Definition three_hits : list (ObjId * ObjId * Z) :=
  [(1%nat, 3%nat, 150); (1%nat, 3%nat, 900); (1%nat, 3%nat, 0)].

(** * Properties *)

(** ** Running the monad *)

Ltac py_unfold :=
  unfold bind, ret, raise, get_obj, gets, modify, update_obj, msg,
         msg_contents, randint, draw, load_global in *.

Lemma bind_Return {A B} (c : Py A) (k : A -> Py B) w a w' :
  c w = (Return a, w') -> bind c k w = k a w'.
Proof. intros H. unfold bind. by rewrite H. Qed.

Lemma bind_Raise {A B} (c : Py A) (k : A -> Py B) w e w' :
  c w = (Raise e, w') -> bind c k w = (Raise e, w').
Proof. intros H. unfold bind. by rewrite H. Qed.

(** Writing one attribute of an object leaves the others as they were, for
    every object of the store. *)
Lemma set_health_elsewhere (store : gmap nat Obj) (o x : ObjId) (h : Z) :
  let o' := <[o := set_health h (store !!! o)]> store !!! x in
  key o' = key (store !!! x) /\ contents o' = contents (store !!! x) /\
  location o' = location (store !!! x) /\ hiding o' = hiding (store !!! x).
Proof.
  simpl. destruct (decide (o = x)) as [->|Hne].
  - by rewrite lookup_total_insert_eq.
  - by rewrite lookup_total_insert_ne.
Qed.

Lemma set_hiding_elsewhere (store : gmap nat Obj) (o x : ObjId) (h : Z) :
  let o' := <[o := set_hiding h (store !!! o)]> store !!! x in
  key o' = key (store !!! x) /\ contents o' = contents (store !!! x) /\
  location o' = location (store !!! x) /\ health o' = health (store !!! x) /\
  level o' = level (store !!! x) /\ is_character o' = is_character (store !!! x).
Proof.
  simpl. destruct (decide (o = x)) as [->|Hne].
  - by rewrite lookup_total_insert_eq.
  - by rewrite lookup_total_insert_ne.
Qed.

(** Who hears a broadcast: the occupants, minus the excluded one. *)
Lemma elem_of_recipients (cs : list ObjId) (x o : ObjId) :
  o ∈ recipients cs [x] <-> o ∈ cs /\ o ≠ x.
Proof.
  unfold recipients. rewrite list_elem_of_filter, list_elem_of_singleton. tauto.
Qed.

(** ** Combat: [at_weapon_hit] *)

Section CombatFacts.
Variable target_msg : string -> string -> Z -> string.
Variable search_object : string -> gmap nat Obj -> list ObjId.
Variable move_to : ObjId -> list ObjId -> World -> World.

(** C7: a defender at health 1000 hit for 150 ends at health 850, is told
    the "exceptional health" message (850 is not above 850), the occupants
    of the room other than the defender are told the same tier in the
    third person, and the call returns without a death transition: nothing
    else of the world changes. *)
Theorem at_weapon_hit_1000_150 (self attacker weapon : ObjId) (w : World) :
  health (objs w !!! self) = 1000 ->
  let me := objs w !!! self in
  let others := recipients (contents (objs w !!! location me)) [self] in
  at_weapon_hit characters_py target_msg search_object move_to
                self attacker weapon 150 w
  = (Return tt,
     mkWorld (<[self := set_health 850 me]> (objs w)) (tape w) (drawn w)
       ((outbox w
         ++ [(self, target_msg (key (objs w !!! attacker))
                               (key (objs w !!! weapon)) 150);
             (self, "You are in exceptional health.")])
         ++ (map (fun o => (o, key me +:+ " is in exceptional health.")) others)))
  /\ (self ∉ others)
  /\ (forall o, o ∈ contents (objs w !!! location me) -> o ≠ self -> o ∈ others).
Proof.
  intros Hh me others. split; [|split].
  - subst others me. unfold at_weapon_hit. py_unfold. simpl.
    rewrite lookup_total_insert_eq, Hh. simpl.
    change (Z.max (1000 - 150) 0) with 850.
    destruct (set_health_elsewhere (objs w) self
                (location (objs w !!! self)) 850) as (_ & Hc & _).
    simpl in Hc. rewrite Hc, <- !app_assoc. reflexivity.
  - unfold others. rewrite elem_of_recipients. tauto.
  - intros o Ho Hne. unfold others. by rewrite elem_of_recipients.
Qed.

(** What one call can do to the defender's health: nothing when the call
    stops before the assignment, the clamped subtraction, or the respawn
    value written by [die]. *)
Lemma at_weapon_hit_health globals (self attacker weapon : ObjId)
    (damage : Z) (w : World) :
  let h := health (objs w !!! self) in
  let h' := health (objs (at_weapon_hit globals target_msg search_object
                            move_to self attacker weapon damage w).2
                    !!! self) in
  h' = h \/ h' = Z.max (h - damage) 0 \/ h' = 200.
Proof.
  unfold at_weapon_hit, die. py_unfold. simpl.
  repeat (case_bool_decide; simpl);
    rewrite ?lookup_total_insert_eq; simpl; auto.
Qed.

(** Were [search_object] bound in the module, [die] would return with the
    health at 200 whether or not the lookup of "Limbo" finds a place. *)
Lemma die_resets_health globals (self : ObjId) (w : World) :
  "search_object" ∈ globals ->
  exists w', die globals search_object move_to self w = (Return tt, w') /\
             health (objs w' !!! self) = 200.
Proof.
  intros Hin. unfold die. py_unfold.
  rewrite bool_decide_eq_true_2 by (apply elem_of_app; by left). simpl.
  case_bool_decide; simpl; eexists; (split; [reflexivity|]); simpl;
    by rewrite lookup_total_insert_eq.
Qed.

(** C1: a hit that drives the health to 0 or below reaches [die], whose
    first step reads the name [search_object]; [characters.py] binds no
    such name, so the call raises [NameError] to its caller and the
    defender is left at health 0 instead of 200. *)
Theorem at_weapon_hit_lethal_raises (self attacker weapon : ObjId)
    (damage : Z) (w : World) :
  health (objs w !!! self) - damage <= 0 ->
  exists w',
    at_weapon_hit characters_py target_msg search_object move_to
                  self attacker weapon damage w
    = (Raise (NameError "search_object"), w')
    /\ health (objs w' !!! self) = 0.
Proof.
  intros Hle. unfold at_weapon_hit, die. py_unfold. simpl.
  rewrite lookup_total_insert_eq. simpl.
  rewrite bool_decide_eq_true_2 by lia. simpl.
  eexists. split; [reflexivity|]. simpl.
  rewrite lookup_total_insert_eq. simpl. lia.
Qed.

(** C2, as amended: each call keeps the health at or above 0; with a
    damage of at least 0 and a capacity of at least the respawn value 200
    it also keeps it at or below the capacity; so the bounds hold after
    every call of a sequence of such hits. *)
Theorem hit_trace_health_bounds globals (self : ObjId) (maxHealth : Z)
    (hits : list (ObjId * ObjId * Z)) (w : World) :
  0 <= health (objs w !!! self) <= maxHealth ->
  200 <= maxHealth ->
  Forall (fun w' => 0 <= health (objs w' !!! self))
         (hit_trace globals target_msg search_object move_to self hits w)
  /\ (Forall (fun hit => 0 <= hit.2) hits ->
      Forall (fun w' => 0 <= health (objs w' !!! self) <= maxHealth)
             (hit_trace globals target_msg search_object move_to self hits w)).
Proof.
  intros Hw Hmax. split.
  - assert (Hlo : 0 <= health (objs w !!! self)) by lia. clear Hw.
    revert w Hlo. induction hits as [|[[a wp] d] hits IH]; intros w Hlo;
      simpl; constructor.
    + pose proof (at_weapon_hit_health globals self a wp d w) as H.
      simpl in H. lia.
    + apply IH.
      pose proof (at_weapon_hit_health globals self a wp d w) as H.
      simpl in H. lia.
  - intros Hpos. revert w Hw.
    induction Hpos as [|[[a wp] d] hits Hd Hpos IH]; intros w Hw;
      simpl; [constructor|]. simpl in Hd.
    pose proof (at_weapon_hit_health globals self a wp d w) as H.
    simpl in H. constructor; [lia|]. apply IH. lia.
Qed.
End CombatFacts.

(** The defender of the scenario: Bob, at health 1000, hit by Ann. *)
Lemma at_weapon_hit_1000_150_witness :
  health (objs arena !!! 2%nat) = 1000 /\
  health (objs (at_weapon_hit characters_py sample_target_msg no_match stay
                  2%nat 1%nat 3%nat 150 arena).2
          !!! 2%nat) = 850.
Proof.
  split; [reflexivity|].
  destruct (at_weapon_hit_1000_150 sample_target_msg no_match stay
              2%nat 1%nat 3%nat arena eq_refl)
    as [-> _].
  reflexivity.
Defined.

(** The failing input of C1: Bob at health 40, hit for 60. *)
Lemma at_weapon_hit_lethal_raises_witness :
  health (objs wounded_bob !!! 2%nat) - 60 <= 0 /\
  (at_weapon_hit characters_py sample_target_msg no_match stay
     2%nat 1%nat 3%nat 60 wounded_bob).1
  = Raise (NameError "search_object").
Proof.
  assert (H : health (objs wounded_bob !!! 2%nat) - 60 <= 0)
    by (vm_compute; discriminate).
  split; [exact H|].
  destruct (at_weapon_hit_lethal_raises sample_target_msg no_match stay
              2%nat 1%nat 3%nat 60 wounded_bob H)
    as (w' & -> & _).
  reflexivity.
Defined.

(** C2 as stated fails: a negative damage is not treated as zero, it is
    subtracted like any other, and lifts Bob's health from 1000 to 1005,
    above a capacity of 1000. *)
Lemma negative_damage_exceeds_max_health :
  0 <= health (objs arena !!! 2%nat) <= 1000 /\
  health (objs (at_weapon_hit characters_py sample_target_msg no_match stay
                  2%nat 1%nat 3%nat (-5) arena).2 !!! 2%nat) = 1005 /\
  ~ (0 <= health (objs (at_weapon_hit characters_py sample_target_msg
                          no_match stay 2%nat 1%nat 3%nat (-5) arena).2
                  !!! 2%nat) <= 1000).
Proof.
  vm_compute. repeat split; try discriminate.
  intros [_ H]. apply H. reflexivity.
Qed.

(** Three hits on Bob: the second is lethal, the third lands on the state
    the second left. *)
Lemma hit_trace_health_bounds_witness :
  Forall (fun w' => 0 <= health (objs w' !!! 2%nat) <= 1000)
         (hit_trace characters_py sample_target_msg no_match stay 2%nat
                    three_hits
                    arena).
Proof.
  apply (hit_trace_health_bounds sample_target_msg no_match stay
           characters_py 2%nat 1000 three_hits
           arena).
  - vm_compute. split; discriminate.
  - vm_compute. discriminate.
  - repeat constructor; vm_compute; discriminate.
Defined.

(** ** Condition tiers *)

Lemma tier_index_map_append (name : string) (table : list string) (m : string) :
  tier_index (map (String.append name) table) (name +:+ m) = tier_index table m.
Proof.
  induction table as [|t table IH]; simpl; [reflexivity|].
  rewrite IH. destruct (decide (m = t)) as [->|Hne].
  - by rewrite !bool_decide_eq_true_2.
  - rewrite !bool_decide_eq_false_2; [reflexivity|assumption|].
    intros Heq. by apply (inj (String.append name)) in Heq.
Qed.

Lemma self_health_msg_tier (o : Obj) :
  tier_index self_tiers (self_health_msg o) = Some (tier_of_health (health o)).
Proof.
  unfold self_health_msg, tier_of_health.
  repeat (case_bool_decide; [reflexivity|]). reflexivity.
Qed.

Lemma health_msg_tier (o : Obj) :
  tier_index (third_person_tiers (key o)) (health_msg o)
  = Some (tier_of_health (health o)).
Proof.
  unfold health_msg, tier_of_health, third_person_tiers.
  repeat (case_bool_decide;
          [rewrite tier_index_map_append; reflexivity|]).
  rewrite tier_index_map_append; reflexivity.
Qed.

Lemma tier_of_health_mono (h1 h2 : Z) :
  h2 <= h1 -> (tier_of_health h2 <= tier_of_health h1)%nat.
Proof.
  intros Hle. unfold tier_of_health.
  repeat (case_bool_decide; try lia).
Qed.

(** C8: of two health values the higher one is never told, nor shown to
    others, in a worse tier: the rank of its message in the table of tiers
    is at least the rank of the message of the lower one. *)
Theorem health_tiers_monotonic (a b : Obj) :
  health b < health a ->
  (exists ta tb,
      tier_index self_tiers (self_health_msg a) = Some ta /\
      tier_index self_tiers (self_health_msg b) = Some tb /\
      (tb <= ta)%nat) /\
  (exists ta tb,
      tier_index (third_person_tiers (key a)) (health_msg a) = Some ta /\
      tier_index (third_person_tiers (key b)) (health_msg b) = Some tb /\
      (tb <= ta)%nat).
Proof.
  intros Hlt.
  assert (Hm : (tier_of_health (health b) <= tier_of_health (health a))%nat)
    by (apply tier_of_health_mono; lia).
  split; eexists _, _.
  - rewrite !self_health_msg_tier. eauto.
  - rewrite !health_msg_tier. eauto.
Qed.

(** Ann at 851 and Bob at 850, on the two sides of a threshold. *)
Lemma health_tiers_monotonic_witness :
  health (character "Bob" 0 850 0 3) < health (character "Ann" 0 851 0 3) /\
  exists ta tb,
    tier_index self_tiers (self_health_msg (character "Ann" 0 851 0 3)) = Some ta /\
    tier_index self_tiers (self_health_msg (character "Bob" 0 850 0 3)) = Some tb /\
    (tb <= ta)%nat.
Proof.
  assert (H : health (character "Bob" 0 850 0 3)
              < health (character "Ann" 0 851 0 3)) by reflexivity.
  split; [exact H|].
  exact (proj1 (health_tiers_monotonic _ _ H)).
Defined.

(** ** The random source *)

Lemma randint_roll (a b : Z) (w : World) :
  randint a b w
  = (Return (roll_at w 0 a b),
     mkWorld (objs w) (tape w) (S (drawn w)) (outbox w)).
Proof.
  unfold randint, roll_at. py_unfold. by rewrite Nat.add_0_r.
Qed.

Lemma roll_at_range (w : World) (i : nat) (a b : Z) :
  a <= b -> a <= roll_at w i a b <= b.
Proof.
  intros Hab. unfold roll_at.
  pose proof (Z.mod_pos_bound (tape w (drawn w + i)%nat) (b - a + 1)). lia.
Qed.

(** ** Concealment: [reveal] *)

(** C6: [reveal] returns with the concealment level of the actor at 0.  At
    level 0 it changes nothing but the outbox, which gets "You were not
    hiding.", and so does every further call; at any other level, so at
    every level above 0, it writes level 0, tells the actor, and tells
    every other occupant of the room that the actor stepped out of the
    shadows. *)
Theorem reveal_ends_visible (hider : ObjId) (w : World) :
  let h := objs w !!! hider in
  let w' := (reveal hider w).2 in
  (reveal hider w).1 = Return tt /\
  hiding (objs w' !!! hider) = 0 /\
  (hiding h = 0 ->
     w' = mkWorld (objs w) (tape w) (drawn w)
                  (outbox w ++ [(hider, "You were not hiding.")]) /\
     reveal hider w'
     = (Return tt,
        mkWorld (objs w) (tape w) (drawn w)
                (outbox w' ++ [(hider, "You were not hiding.")]))) /\
  (hiding h <> 0 ->
     let others := recipients (contents (objs w !!! location h)) [hider] in
     w' = mkWorld (<[hider := set_hiding 0 h]> (objs w)) (tape w) (drawn w)
            ((outbox w ++ [(hider, "You are no longer hiding.")])
             ++ (map (fun o => (o, key h +:+ " has stepped out of the shadows."))
                     others)) /\
     (hider ∉ others) /\
     (forall o, o ∈ contents (objs w !!! location h) -> o <> hider ->
                o ∈ others)).
Proof.
  intros h w'. subst h w'. unfold reveal. py_unfold. simpl.
  destruct (set_hiding_elsewhere (objs w) hider
              (location (objs w !!! hider)) 0) as (_ & Hc & _).
  simpl in Hc.
  case_bool_decide as H0; simpl.
  - split; [done|]. split; [done|]. split; [|done].
    intros _. split; [done|]. by rewrite bool_decide_eq_true_2.
  - rewrite !lookup_total_insert_eq. simpl.
    split; [done|]. split; [done|]. split; [done|].
    intros _. split; [by rewrite Hc|]. split.
    + rewrite elem_of_recipients. tauto.
    + intros o Ho Hne. by rewrite elem_of_recipients.
Qed.

(** Bob, hidden at level 2 next to Ann, steps out. *)
Lemma reveal_ends_visible_witness :
  hiding (objs (bob_hidden 2 3 []) !!! 2%nat) <> 0 /\
  hiding (objs (reveal 2%nat (bob_hidden 2 3 [])).2 !!! 2%nat) = 0 /\
  outbox (reveal 2%nat (bob_hidden 2 3 [])).2
  = [(2%nat, "You are no longer hiding.");
     (1%nat, "Bob has stepped out of the shadows.")].
Proof.
  assert (H : hiding (objs (bob_hidden 2 3 []) !!! 2%nat) <> 0)
    by (vm_compute; discriminate).
  split; [exact H|].
  destruct (reveal_ends_visible 2%nat (bob_hidden 2 3 [])) as (_ & Hz & _ & Hr).
  split; [exact Hz|].
  destruct (Hr H) as (-> & _). reflexivity.
Defined.

(** ** Concealment: [hide] *)

(** C4 as stated fails: in a no-hide room the attempt stops at the room
    check, before the occupants are counted, and the message is the one of
    the room, whether or not somebody is watching. *)
Lemma hide_watched_no_hide_room :
  count_others (objs no_hide_cave) 1%nat
               (contents (objs no_hide_cave !!! 0%nat)) 0 > 0 /\
  outbox (hide 1%nat no_hide_cave).2
  = [(1%nat, "There is no room to hide here.")] /\
  ~ (outbox (hide 1%nat no_hide_cave).2
     = outbox no_hide_cave
       ++ [(1%nat, if bool_decide (hiding (objs no_hide_cave !!! 1%nat) > 0)
                   then "You can't hide any better with people in the room."
                   else "You can't hide when people are watching you.")]).
Proof.
  vm_compute. split; [reflexivity|]. split; [reflexivity|]. discriminate.
Qed.

(** C4, as amended: with another [Character] in the room, [hide] returns
    without touching the object store, whatever the rolls, after one failure
    message to the hider: the one of the room check when the room stops the
    attempt first, and otherwise the one that varies by whether the hider is
    already concealed. *)
Theorem hide_watched_is_noop (hider : ObjId) (w : World) :
  let h := objs w !!! hider in
  let r := objs w !!! location h in
  count_others (objs w) hider (contents r) 0 > 0 ->
  exists m w',
    hide hider w = (Return tt, w') /\
    objs w' = objs w /\
    outbox w' = outbox w ++ [(hider, m)] /\
    m = (if bool_decide (room_kind r = NO_HIDE)
         then "There is no room to hide here."
         else if bool_decide (room_kind r = HARD_TO_HIDE /\ roll_at w 0 0 100 > 20)
         then "You couldn't find a place to hide."
         else if bool_decide (hiding h > 0)
         then "You can't hide any better with people in the room."
         else "You can't hide when people are watching you.").
Proof.
  intros h r Hothers. subst h r. unfold hide, num_unhidden_others.
  unfold roll_at. rewrite Nat.add_0_r. py_unfold. simpl.
  destruct (decide (room_kind (objs w !!! location (objs w !!! hider)) = NO_HIDE))
    as [Hno|Hno].
  { rewrite !bool_decide_eq_true_2 by done. simpl. by eexists _, _. }
  rewrite !(bool_decide_eq_false_2 (_ = NO_HIDE)) by done.
  destruct (decide (room_kind (objs w !!! location (objs w !!! hider))
                    = HARD_TO_HIDE)) as [Hhard|Hhard].
  - rewrite (bool_decide_eq_true_2 (_ = HARD_TO_HIDE)) by done. simpl.
    destruct (decide (0 + tape w (drawn w) `mod` (100 - 0 + 1) > 20))
      as [Hroll|Hroll].
    + rewrite !bool_decide_eq_true_2 by done. simpl. by eexists _, _.
    + rewrite (bool_decide_eq_false_2 (_ > 20)) by done.
      rewrite (bool_decide_eq_false_2 (_ /\ _)) by tauto. simpl.
      rewrite (bool_decide_eq_true_2 (count_others _ _ _ _ > 0)) by done.
      case_bool_decide; simpl; by eexists _, _.
  - rewrite (bool_decide_eq_false_2 (_ = HARD_TO_HIDE)) by done.
    rewrite (bool_decide_eq_false_2 (_ /\ _)) by tauto. simpl.
    rewrite (bool_decide_eq_true_2 (count_others _ _ _ _ > 0)) by done.
    case_bool_decide; simpl; by eexists _, _.
Qed.

(** Ann tries to hide with Bob in the room. *)
Lemma hide_watched_is_noop_witness :
  count_others (objs arena) 1%nat (contents (objs arena !!! 0%nat)) 0 > 0 /\
  exists m w', hide 1%nat arena = (Return tt, w') /\ objs w' = objs arena /\
               outbox w' = outbox arena ++ [(1%nat, m)] /\
               m = "You can't hide when people are watching you.".
Proof.
  assert (H : count_others (objs arena) 1%nat
                (contents (objs arena !!! 0%nat)) 0 > 0) by reflexivity.
  split; [exact H|].
  destruct (hide_watched_is_noop 1%nat arena H)
    as (m & w' & H1 & H2 & H3 & H4).
  exists m, w'. split; [exact H1|]. split; [exact H2|]. split; [exact H3|].
  rewrite H4. reflexivity.
Defined.

(** [hide] always returns, and writes the store on one path only: the one
    that raises the level by 1, open only at a level of at most [level]. *)
Lemma hide_store (hider : ObjId) (w : World) :
  let h := objs w !!! hider in
  (hide hider w).1 = Return tt /\
  (objs (hide hider w).2 = objs w \/
   (hiding h <= level h /\
    objs (hide hider w).2 = <[hider := set_hiding (hiding h + 1) h]> (objs w))).
Proof.
  simpl. unfold hide, num_unhidden_others. py_unfold. simpl.
  repeat (case_bool_decide; simpl); auto; split; auto; right; split; auto; lia.
Qed.

(** Past the checks, [hide] is down to its cap check. *)
Lemma hide_passed (hider : ObjId) (w : World) :
  let h := objs w !!! hider in
  passes_hide_checks hider w ->
  exists n,
    hide hider w
    = (if bool_decide (hiding h > level h)
       then msg hider "You're pretty well hidden now.  I don't think you could be any less visible."
       else msg hider (if bool_decide (hiding h + 1 > 1)
                       then "You've managed to hide yourself a little better."
                       else "You've hidden yourself from view."))
        (mkWorld (if bool_decide (hiding h > level h) then objs w
                  else <[hider := set_hiding (hiding h + 1) h]> (objs w))
                 (tape w) (drawn w + n)%nat (outbox w)).
Proof.
  intros h (Hnone & Hrolls). subst h. unfold roll_at in Hrolls.
  rewrite Nat.add_0_r, Nat.add_1_r in Hrolls.
  unfold hide, num_unhidden_others. py_unfold. simpl.
  destruct Hrolls as [(Hk & Hroll)|(Hk & Hr1 & Hr2)]; rewrite Hk.
  - rewrite (bool_decide_eq_false_2 (NORMAL = NO_HIDE)) by done.
    rewrite (bool_decide_eq_false_2 (NORMAL = HARD_TO_HIDE)) by done. simpl.
    rewrite Hnone, (bool_decide_eq_false_2 (0 > 0)) by lia. simpl.
    rewrite (bool_decide_eq_false_2 (_ < 25)) by lia.
    exists 1%nat. rewrite Nat.add_1_r.
    case_bool_decide; simpl; [reflexivity|].
    rewrite lookup_total_insert_eq. simpl. by case_bool_decide.
  - rewrite (bool_decide_eq_false_2 (HARD_TO_HIDE = NO_HIDE)) by done.
    rewrite (bool_decide_eq_true_2 (HARD_TO_HIDE = HARD_TO_HIDE)) by done. simpl.
    rewrite (bool_decide_eq_false_2 (_ > 20)) by lia. simpl.
    rewrite Hnone, (bool_decide_eq_false_2 (0 > 0)) by lia. simpl.
    rewrite (bool_decide_eq_false_2 (_ < 25)) by lia.
    exists 2%nat. replace (drawn w + 2)%nat with (S (S (drawn w))) by lia.
    case_bool_decide; simpl; [reflexivity|].
    rewrite lookup_total_insert_eq. simpl. by case_bool_decide.
Qed.

(** C5: a level of at most [level + 1] stays at most [level + 1] through
    [hide].  When the earlier checks pass and the level is above [level],
    the hider is told they could not be any less visible and nothing is
    written; when they pass and the level is at most [level], the level goes
    up by exactly 1. *)
Theorem hide_respects_cap (hider : ObjId) (w : World) :
  let h := objs w !!! hider in
  let w' := (hide hider w).2 in
  let h' := objs w' !!! hider in
  hiding h <= level h + 1 ->
  (hide hider w).1 = Return tt /\
  level h' = level h /\
  hiding h' <= level h' + 1 /\
  (passes_hide_checks hider w ->
     (hiding h > level h ->
        objs w' = objs w /\
        outbox w' = outbox w ++ [(hider, "You're pretty well hidden now.  I don't think you could be any less visible.")]) /\
     (hiding h <= level h ->
        objs w' = <[hider := set_hiding (hiding h + 1) h]> (objs w) /\
        hiding h' = hiding h + 1 /\
        outbox w' = outbox w ++ [(hider, if bool_decide (hiding h + 1 > 1)
                                         then "You've managed to hide yourself a little better."
                                         else "You've hidden yourself from view.")])).
Proof.
  intros h w' h' Hcap. subst h w' h'.
  destruct (hide_store hider w) as (Hret & Hst). simpl in Hst.
  split; [exact Hret|].
  assert (Hlv : level (objs (hide hider w).2 !!! hider) = level (objs w !!! hider)
                /\ hiding (objs (hide hider w).2 !!! hider)
                   <= level (objs w !!! hider) + 1).
  { destruct Hst as [->|(Hle & ->)]; [split; [done|lia]|].
    rewrite lookup_total_insert_eq. simpl. split; [done|lia]. }
  destruct Hlv as (Hlv & Hhid).
  split; [exact Hlv|]. split; [lia|].
  intros Hpass. destruct (hide_passed hider w Hpass) as (n & ->).
  split; intros Hc.
  - rewrite !bool_decide_eq_true_2 by done. by simpl.
  - rewrite !(bool_decide_eq_false_2 (_ > level _)) by lia. simpl.
    by rewrite lookup_total_insert_eq.
Qed.

(** The scenario of the spec: level 3, concealment 4, alone in the room,
    with a roll of 60 for the hiding place. *)
Lemma hide_respects_cap_witness :
  hiding (objs ann_alone !!! 1%nat) <= level (objs ann_alone !!! 1%nat) + 1 /\
  passes_hide_checks 1%nat ann_alone /\
  hiding (objs ann_alone !!! 1%nat) > level (objs ann_alone !!! 1%nat) /\
  hiding (objs (hide 1%nat ann_alone).2 !!! 1%nat) <= 4 /\
  objs (hide 1%nat ann_alone).2 = objs ann_alone.
Proof.
  set (w := ann_alone).
  assert (H1 : hiding (objs w !!! 1%nat) <= level (objs w !!! 1%nat) + 1)
    by (vm_compute; discriminate).
  assert (H2 : passes_hide_checks 1%nat w).
  { unfold passes_hide_checks.
    split; [reflexivity|left; split; [reflexivity|vm_compute; discriminate]]. }
  assert (H3 : hiding (objs w !!! 1%nat) > level (objs w !!! 1%nat))
    by reflexivity.
  destruct (hide_respects_cap 1%nat w H1) as (_ & Hl & Hh & Hp).
  destruct (Hp H2) as (Hcap & _). destruct (Hcap H3) as (Hs & _).
  split; [exact H1|]. split; [exact H2|]. split; [exact H3|].
  split; [|exact Hs].
  rewrite Hl in Hh. exact Hh.
Defined.

(** ** Concealment: [search] *)

Lemma choice_elem (seq : list ObjId) (w : World) :
  seq <> [] ->
  exists picked,
    picked ∈ seq /\
    choice seq w
    = (Return picked, mkWorld (objs w) (tape w) (S (drawn w)) (outbox w)).
Proof.
  intros Hne. destruct seq as [|x seq]; [done|].
  unfold choice. py_unfold. eexists. split; [|reflexivity].
  apply nth_elem_of.
  pose proof (Z.mod_pos_bound (tape w (drawn w))
                (Z.of_nat (length (x :: seq)))) as Hb.
  simpl length in *. lia.
Qed.

(** How [search] runs, branch by branch. *)
Lemma search_run (searcher : ObjId) (w : World) :
  search searcher w
  = match search_category (roll_at w 0 0 100) with
    | RevealPeople =>
        match reveal_people searcher (search_started searcher w) with
        | (Return true, w2) => (Return tt, w2)
        | (Return false, w2) => (Return tt, told_nothing searcher w2)
        | (Raise e, w2) => (Raise e, w2)
        end
    | _ => (Return tt, told_nothing searcher (search_started searcher w))
    end.
Proof.
  unfold search, search_started, told_nothing, roll_at.
  rewrite Nat.add_0_r. py_unfold. simpl.
  destruct (search_category _); try reflexivity.
  destruct (reveal_people _ _) as [[[|]|e] w2]; reflexivity.
Qed.

Lemma reveal_people_run (searcher : ObjId) (w : World) :
  reveal_people searcher w
  = reveal_people_loop 7 searcher
      (filter (fun x => is_character (objs w !!! x))
              (contents (objs w !!! location (objs w !!! searcher)))) w.
Proof. reflexivity. Qed.

(** The retries of [reveal_people] never write an object whose concealment
    level is [MAX_HIDE] or more: the discovery roll is at most [MAX_HIDE]. *)
Lemma reveal_people_loop_keeps (n : nat) (searcher x : ObjId)
    (characters : list ObjId) (w : World) :
  MAX_HIDE <= hiding (objs w !!! x) ->
  objs (reveal_people_loop n searcher characters w).2 !!! x = objs w !!! x.
Proof.
  revert w. induction n as [|n IH]; intros w Hx; [reflexivity|].
  simpl reveal_people_loop.
  destruct characters as [|c cs]; [reflexivity|].
  destruct (choice_elem (c :: cs) w) as (picked & _ & Hch); [done|].
  rewrite (bind_Return _ _ _ _ _ Hch).
  unfold bind at 1, get_obj at 1. simpl.
  destruct (bool_decide (picked ≠ searcher) && is_hiding (objs w !!! picked)).
  - unfold bind at 1. unfold bind at 1. rewrite randint_roll. simpl.
    unfold ret at 1.
    case_bool_decide as Hlucky.
    + py_unfold. simpl.
      assert (picked <> x) as Hne.
      { intros ->. unfold roll_at, MAX_HIDE in *. simpl in Hlucky.
        pose proof (Z.mod_pos_bound (tape w (S (drawn w + 0))) (15 - 0 + 1)).
        lia. }
      by rewrite lookup_total_insert_ne.
    + rewrite IH; [reflexivity|exact Hx].
  - unfold bind at 1, ret at 1. rewrite IH; [reflexivity|exact Hx].
Qed.

(** C10: an object whose concealment level is [MAX_HIDE] (15) or more comes
    out of [reveal_people], and of [search], as it went in, for every
    searcher and every random source: no discovery roll exceeds its level. *)
Theorem search_keeps_max_hidden (searcher x : ObjId) (w : World) :
  MAX_HIDE <= hiding (objs w !!! x) ->
  objs (reveal_people searcher w).2 !!! x = objs w !!! x /\
  objs (search searcher w).2 !!! x = objs w !!! x /\
  hiding (objs (search searcher w).2 !!! x) = hiding (objs w !!! x).
Proof.
  intros Hx.
  assert (Hrp : forall w0, MAX_HIDE <= hiding (objs w0 !!! x) ->
                  objs (reveal_people searcher w0).2 !!! x = objs w0 !!! x).
  { intros w0 H0. rewrite reveal_people_run.
    by apply reveal_people_loop_keeps. }
  assert (Hs : objs (search searcher w).2 !!! x = objs w !!! x).
  { rewrite search_run.
    destruct (search_category _); try reflexivity.
    specialize (Hrp (search_started searcher w) Hx).
    destruct (reveal_people _ _) as [[[|]|e] w2]; exact Hrp. }
  split; [by apply Hrp|]. split; [exact Hs|by rewrite Hs].
Qed.

(** Ann searches the room where Bob hides at level 15: a category roll of
    50, and seven picks of Bob, each with the highest discovery roll. *)
Lemma search_keeps_max_hidden_witness :
  MAX_HIDE <= hiding (objs (bob_hidden 15 20 seven_tries) !!! 2%nat) /\
  hiding (objs (search 1%nat (bob_hidden 15 20 seven_tries)).2 !!! 2%nat) = 15 /\
  drawn (search 1%nat (bob_hidden 15 20 seven_tries)).2 = 15%nat.
Proof.
  set (w := bob_hidden 15 20 seven_tries).
  assert (H : MAX_HIDE <= hiding (objs w !!! 2%nat)) by (vm_compute; discriminate).
  split; [exact H|]. split; [|reflexivity].
  destruct (search_keeps_max_hidden 1%nat 2%nat w H) as (_ & _ & ->).
  reflexivity.
Defined.

(** With the searcher as the only candidate every pick is the searcher, and
    the seven retries run out without a find and without a write. *)
Lemma reveal_people_loop_only_searcher (n : nat) (searcher : ObjId)
    (characters : list ObjId) (w : World) :
  characters <> [] ->
  Forall (eq searcher) characters ->
  reveal_people_loop n searcher characters w
  = (Return false, mkWorld (objs w) (tape w) (drawn w + n)%nat (outbox w)).
Proof.
  intros Hne Hall. revert w. induction n as [|n IH]; intros w.
  - simpl. unfold ret. rewrite Nat.add_0_r. by destruct w.
  - simpl reveal_people_loop.
    destruct (choice_elem characters w Hne) as (picked & Hin & Hch).
    rewrite (bind_Return _ _ _ _ _ Hch).
    rewrite Forall_forall in Hall. apply Hall in Hin. subst picked.
    unfold bind at 1, get_obj at 1. simpl.
    rewrite (bool_decide_eq_false_2 (searcher <> searcher)) by tauto. simpl.
    unfold bind at 1, ret at 1. rewrite IH. simpl.
    by rewrite Nat.add_succ_r.
Qed.

Lemma search_only_searcher (searcher : ObjId) (w : World) :
  let candidates := filter (fun x => is_character (objs w !!! x))
                      (contents (objs w !!! location (objs w !!! searcher))) in
  candidates <> [] ->
  Forall (eq searcher) candidates ->
  search_category (roll_at w 0 0 100) = RevealPeople ->
  exists w', search searcher w = (Return tt, w') /\
             objs w' = objs w /\
             outbox w' = outbox (search_started searcher w)
                         ++ [(searcher, "You haven't found anything.")].
Proof.
  intros candidates Hne Hall Hcat. rewrite search_run, Hcat.
  rewrite reveal_people_run.
  rewrite reveal_people_loop_only_searcher by assumption.
  eexists. split; [reflexivity|]. by simpl.
Qed.

(** C3: with no candidate at all the reveal-people branch fails on its
    first pick: [random.choice] raises [IndexError] on the empty list,
    [reveal_people] passes it on, and [search] raises it to its caller
    without telling the searcher that nothing was found. *)
Theorem search_no_candidates_raises (searcher : ObjId) (w : World) :
  filter (fun x => is_character (objs w !!! x))
         (contents (objs w !!! location (objs w !!! searcher))) = [] ->
  reveal_people searcher w = (Raise IndexError, w) /\
  (search_category (roll_at w 0 0 100) = RevealPeople ->
   search searcher w = (Raise IndexError, search_started searcher w)).
Proof.
  intros Hnil.
  assert (Hrp : forall w0, objs w0 = objs w ->
                  reveal_people searcher w0 = (Raise IndexError, w0)).
  { intros w0 H0. rewrite reveal_people_run, H0, Hnil. reflexivity. }
  split; [by apply Hrp|].
  intros Hcat. rewrite search_run, Hcat, Hrp; reflexivity.
Qed.

(** The failing input of C3: the rat searches its den, with a category roll
    of 50. *)
Lemma search_no_candidates_raises_witness :
  filter (fun x => is_character (objs rat_world !!! x))
         (contents (objs rat_world !!! location (objs rat_world !!! 5%nat)))
  = [] /\
  search_category (roll_at rat_world 0 0 100) = RevealPeople /\
  search 5%nat rat_world = (Raise IndexError, search_started 5%nat rat_world).
Proof.
  set (w := rat_world).
  assert (H1 : filter (fun x => is_character (objs w !!! x))
                 (contents (objs w !!! location (objs w !!! 5%nat))) = [])
    by reflexivity.
  assert (H2 : search_category (roll_at w 0 0 100) = RevealPeople)
    by reflexivity.
  split; [exact H1|]. split; [exact H2|].
  exact (proj2 (search_no_candidates_raises 5%nat w H1) H2).
Defined.

(** C9 as stated fails at the upper end of the roll: [randint(0, 100)] can
    return 100, which is not in [40,100), and [search] takes the
    reveal-people branch there: Ann finds Bob. *)
Lemma search_roll_100_reveals_people :
  roll_at (bob_hidden 1 3 [100; 1; 15]) 0 0 100 = 100 /\
  ~ (40 <= roll_at (bob_hidden 1 3 [100; 1; 15]) 0 0 100 < 100) /\
  search_category (roll_at (bob_hidden 1 3 [100; 1; 15]) 0 0 100)
  = RevealPeople /\
  hiding (objs (bob_hidden 1 3 [100; 1; 15]) !!! 2%nat) = 1 /\
  hiding (objs (search 1%nat (bob_hidden 1 3 [100; 1; 15])).2 !!! 2%nat) = 0.
Proof.
  vm_compute. split; [reflexivity|]. split; [|done].
  intros [_ H]. discriminate H.
Qed.

(** C9, as amended: [search] draws one category roll of the inclusive range
    0..100; it takes the reveal-objects branch exactly for 0 <= roll < 20,
    the reveal-exits branch exactly for 20 <= roll < 40 and the
    reveal-people branch exactly for 40 <= roll <= 100.  The first two find
    nothing and write nothing, and a branch that finds nothing ends with
    "You haven't found anything." to the searcher. *)
Theorem search_branches (searcher : ObjId) (w : World) :
  let roll := roll_at w 0 0 100 in
  let w1 := search_started searcher w in
  0 <= roll <= 100 /\
  drawn w1 = S (drawn w) /\
  (search_category roll = RevealObjects <-> 0 <= roll < 20) /\
  (search_category roll = RevealExits <-> 20 <= roll < 40) /\
  (search_category roll = RevealPeople <-> 40 <= roll <= 100) /\
  (search_category roll <> RevealPeople ->
     search searcher w = (Return tt, told_nothing searcher w1) /\
     objs (told_nothing searcher w1) = objs w /\
     drawn (told_nothing searcher w1) = S (drawn w)) /\
  (search_category roll = RevealPeople ->
     forall r w2, reveal_people searcher w1 = (r, w2) ->
       search searcher w
       = match r with
         | Return true => (Return tt, w2)
         | Return false => (Return tt, told_nothing searcher w2)
         | Raise e => (Raise e, w2)
         end).
Proof.
  intros roll w1.
  pose proof (roll_at_range w 0 0 100 ltac:(lia)) as Hr. fold roll in Hr.
  split; [exact Hr|]. split; [reflexivity|].
  assert (Hcases : (search_category roll = RevealObjects /\ roll < 20) \/
                   (search_category roll = RevealExits /\ 20 <= roll < 40) \/
                   (search_category roll = RevealPeople /\ 40 <= roll)).
  { unfold search_category. repeat case_bool_decide; [left|right; left|right; right];
      split; (reflexivity || lia). }
  split; [|split; [|split]].
  - split; [intros He|intros Hlt];
      destruct Hcases as [(Hc & ?)|[(Hc & ?)|(Hc & ?)]]; (congruence || lia).
  - split; [intros He|intros Hlt];
      destruct Hcases as [(Hc & ?)|[(Hc & ?)|(Hc & ?)]]; (congruence || lia).
  - split; [intros He|intros Hlt];
      destruct Hcases as [(Hc & ?)|[(Hc & ?)|(Hc & ?)]]; (congruence || lia).
  - split.
    + intros Hnp. rewrite search_run. fold roll. fold w1.
      destruct (search_category roll); done.
    + intros Hp r w2 Hrp. rewrite search_run. fold roll. fold w1.
      rewrite Hp, Hrp. by destruct r as [[|]|e].
Qed.

(** Ann searches with a roll of 10: the reveal-objects branch. *)
Lemma search_branches_witness :
  search_category (roll_at (bob_hidden 1 3 [10]) 0 0 100) <> RevealPeople /\
  search 1%nat (bob_hidden 1 3 [10])
  = (Return tt, told_nothing 1%nat (search_started 1%nat (bob_hidden 1 3 [10]))).
Proof.
  set (w := bob_hidden 1 3 [10]).
  assert (H : search_category (roll_at w 0 0 100) <> RevealPeople)
    by (vm_compute; discriminate).
  split; [exact H|].
  destruct (search_branches 1%nat w) as (_ & _ & _ & _ & _ & Hn & _).
  exact (proj1 (Hn H)).
Defined.

(** * Further properties of the rules *)

(** ** Who counts as a watcher *)

Lemma count_others_length (store : gmap nat Obj) (hider : ObjId)
    (cs : list ObjId) (num : Z) :
  count_others store hider cs num
  = num + Z.of_nat (length (filter (fun o => is_character (store !!! o)
                                             /\ o <> hider) cs)).
Proof.
  revert num. induction cs as [|o cs IH]; intros num; simpl; [lia|].
  rewrite filter_cons.
  destruct (is_character (store !!! o)) eqn:Hc; simpl.
  - case_bool_decide as Hne; simpl.
    + rewrite decide_True by done. rewrite IH. simpl length. lia.
    + rewrite decide_False by (intros [_ ?]; done). apply IH.
  - apply IH.
Qed.

(** X1: [num_unhidden_others] counts every [Character] of the room other
    than the hider, concealed or not: the count is the number of such
    occupants, and no write to anybody's concealment level changes it. *)
Theorem num_unhidden_others_counts_hidden (store : gmap nat Obj)
    (hider x : ObjId) (cs : list ObjId) (h : Z) :
  count_others store hider cs 0
  = Z.of_nat (length (filter (fun o => is_character (store !!! o)
                                       /\ o <> hider) cs))
  /\ count_others (<[x := set_hiding h (store !!! x)]> store) hider cs 0
     = count_others store hider cs 0.
Proof.
  split; [rewrite count_others_length; lia|].
  generalize 0. induction cs as [|o cs IH]; intros num; simpl; [done|].
  destruct (set_hiding_elsewhere store x o h) as (_ & _ & _ & _ & _ & ->).
  by rewrite !IH.
Qed.

(** ** What [hide] can and cannot do *)

(** X2: [hide] always returns; it sends exactly one message, to the hider;
    it draws at most two rolls; and it either leaves the object store as it
    is or writes the hider's concealment level raised by 1: nobody else is
    touched and the level never goes down. *)
Theorem hide_frame (hider : ObjId) (w : World) :
  exists m n w',
    hide hider w = (Return tt, w') /\
    outbox w' = outbox w ++ [(hider, m)] /\
    tape w' = tape w /\
    drawn w' = (n + drawn w)%nat /\
    (n <= 2)%nat /\
    (objs w' = objs w \/
     objs w' = <[hider := set_hiding (hiding (objs w !!! hider) + 1)
                                     (objs w !!! hider)]> (objs w)).
Proof.
  unfold hide, num_unhidden_others. py_unfold. simpl.
  repeat (case_bool_decide; simpl);
    eexists _;
    first [ exists 0%nat; eexists; do 4 (split; [reflexivity|]);
            split; [lia|solve [auto]]
          | exists 1%nat; eexists; do 4 (split; [reflexivity|]);
            split; [lia|solve [auto]]
          | exists 2%nat; eexists; do 4 (split; [reflexivity|]);
            split; [lia|solve [auto]] ].
Qed.

(** X3: [hide] raises the concealment level exactly when every check before
    the cap check passes and the level is at most [level()]: a no-hide room,
    a failed roll, a watcher or a level above [level()] each keep it where
    it is. *)
Theorem hide_raises_iff (hider : ObjId) (w : World) :
  let h := objs w !!! hider in
  hiding (objs (hide hider w).2 !!! hider) = hiding h + 1
  <-> passes_hide_checks hider w /\ hiding h <= level h.
Proof.
  intros h. subst h. split.
  - unfold passes_hide_checks, roll_at. rewrite Nat.add_0_r, Nat.add_1_r.
    pose proof (count_others_length (objs w) hider
                  (contents (objs w !!! location (objs w !!! hider))) 0)
      as Hcount.
    unfold hide, num_unhidden_others. py_unfold. simpl.
    destruct (room_kind (objs w !!! location (objs w !!! hider))) eqn:Hk;
      repeat (case_bool_decide; simpl; try done);
      rewrite ?lookup_total_insert_eq; simpl; try lia;
      intros _;
      (split; [split; [lia|]|lia]);
      solve [left; split; [done|lia] | right; split; [done|lia]].
  - intros (Hpass & Hle).
    destruct (hide_passed hider w Hpass) as (n & ->).
    rewrite !(bool_decide_eq_false_2 (_ > level _)) by lia. simpl.
    by rewrite lookup_total_insert_eq.
Qed.

(** Ann, alone at concealment 4 with level 4, hides one level deeper. *)
Lemma hide_raises_iff_witness :
  hiding (objs (hide 1%nat (world (<[0%nat := room_of NORMAL [1]%nat]>
                                   (<[1%nat := character "Ann" 0 1000 4 4]> ∅))
                                  [60])).2 !!! 1%nat) = 5.
Proof.
  apply (hide_raises_iff 1%nat). split; [|vm_compute; discriminate].
  split; [reflexivity|].
  left. split; [reflexivity|vm_compute; discriminate].
Defined.

(** ** What a search can and cannot do *)

(** The two ways the retries of [reveal_people] end when there is somebody
    to pick: without a find, having only drawn from the random source, or
    with the first pick that is not the searcher, is hiding, and loses the
    discovery roll. *)
Lemma reveal_people_loop_cases (n : nat) (searcher : ObjId)
    (characters : list ObjId) (w : World) (r : outcome bool) (w' : World) :
  characters <> [] ->
  reveal_people_loop n searcher characters w = (r, w') ->
  (r = Return false /\
   objs w' = objs w /\ outbox w' = outbox w /\ tape w' = tape w /\
   (drawn w + n <= drawn w' <= drawn w + 2 * n)%nat)
  \/
  (r = Return true /\
   exists p,
     p ∈ characters /\ p <> searcher /\
     is_hiding (objs w !!! p) = true /\
     hiding (objs w !!! p) < MAX_HIDE /\
     objs w' = <[p := set_hiding 0 (objs w !!! p)]> (objs w) /\
     outbox w'
     = (outbox w
        ++ [(searcher, "You've found " +:+ key (objs w !!! p)
                       +:+ " hiding in the shadows!");
            (p, "You've been discovered by " +:+ key (objs w !!! searcher))])
       ++ map (fun o => (o, key (objs w !!! searcher) +:+ " has found "
                            +:+ key (objs w !!! p)
                            +:+ " hiding in the shadows!"))
              (recipients (contents (objs w !!! location (objs w !!! searcher)))
                          [searcher])).
Proof.
  intros Hne. revert w. induction n as [|n IH]; intros w Hrun.
  { left. simpl in Hrun. unfold ret in Hrun. inversion Hrun; subst.
    repeat (split; [reflexivity|]). lia. }
  simpl reveal_people_loop in Hrun.
  destruct (choice_elem characters w Hne) as (picked & Hin & Hch).
  rewrite (bind_Return _ _ _ _ _ Hch) in Hrun.
  unfold bind at 1, get_obj at 1, gets at 1 in Hrun. simpl in Hrun.
  destruct (decide (picked <> searcher)) as [Hps|Hps];
    [rewrite (bool_decide_eq_true_2 _ Hps) in Hrun
    |rewrite (bool_decide_eq_false_2 _ Hps) in Hrun]; simpl in Hrun;
    [destruct (is_hiding (objs w !!! picked)) eqn:Hhid; simpl in Hrun|].
  - unfold bind at 1 in Hrun. unfold bind at 1 in Hrun.
    rewrite randint_roll in Hrun. unfold ret at 1 in Hrun.
    pose proof (roll_at_range
                  (mkWorld (objs w) (tape w) (S (drawn w)) (outbox w))
                  0 0 MAX_HIDE ltac:(unfold MAX_HIDE; lia)) as Hroll.
    case_bool_decide as Hlucky.
    + right.
      unfold bind, update_obj, get_obj, gets, msg, msg_contents, ret in Hrun.
      simpl in Hrun. inversion Hrun; subst r w'; clear Hrun.
      split; [reflexivity|]. exists picked.
      split; [exact Hin|]. split; [exact Hps|]. split; [exact Hhid|].
      simpl in Hlucky. split; [lia|]. split; [reflexivity|].
      simpl.
      destruct (set_hiding_elsewhere (objs w) picked searcher 0)
        as (-> & _ & -> & _).
      destruct (set_hiding_elsewhere (objs w) picked picked 0)
        as (-> & _).
      destruct (set_hiding_elsewhere (objs w) picked
                  (location (objs w !!! searcher)) 0) as (_ & -> & _).
      by rewrite <- !app_assoc.
    + apply IH in Hrun. simpl in Hrun.
      destruct Hrun as [(-> & Ho & Hb & Ht & Hd)|(-> & Hrest)];
        [left; repeat (split; [done|]); lia|right; done].
  - unfold bind at 1, ret at 1 in Hrun. apply IH in Hrun. simpl in Hrun.
    destruct Hrun as [(-> & Ho & Hb & Ht & Hd)|(-> & Hrest)];
      [left; repeat (split; [done|]); lia|right; done].
  - unfold bind at 1, ret at 1 in Hrun. apply IH in Hrun. simpl in Hrun.
    destruct Hrun as [(-> & Ho & Hb & Ht & Hd)|(-> & Hrest)];
      [left; repeat (split; [done|]); lia|right; done].
Qed.

Lemma reveal_people_loop_nobody (n : nat) (searcher : ObjId) (w : World) :
  reveal_people_loop (S n) searcher [] w = (Raise IndexError, w).
Proof. reflexivity. Qed.

(** X4: a [reveal_people] that finds nobody is silent: it returns [False]
    with the object store and the outbox as they were, having only drawn
    from the random source, between 7 and 14 times. *)
Theorem reveal_people_miss_is_silent (searcher : ObjId) (w w' : World) :
  reveal_people searcher w = (Return false, w') ->
  objs w' = objs w /\ outbox w' = outbox w /\ tape w' = tape w /\
  (drawn w + 7 <= drawn w' <= drawn w + 14)%nat.
Proof.
  rewrite reveal_people_run. intros Hrun.
  destruct (filter _ _) as [|c cs] eqn:Hcs.
  { by rewrite reveal_people_loop_nobody in Hrun. }
  apply reveal_people_loop_cases in Hrun; [|done].
  destruct Hrun as [(_ & H)|(Hr & _)]; [exact H|discriminate Hr].
Qed.

(** Ann looks for people in a room where nobody hides. *)
Lemma reveal_people_miss_is_silent_witness :
  reveal_people 1%nat arena = (Return false, (reveal_people 1%nat arena).2) /\
  objs (reveal_people 1%nat arena).2 = objs arena /\
  outbox (reveal_people 1%nat arena).2 = outbox arena.
Proof.
  assert (H : reveal_people 1%nat arena
              = (Return false, (reveal_people 1%nat arena).2))
    by reflexivity.
  split; [exact H|].
  destruct (reveal_people_miss_is_silent 1%nat arena _ H) as (Ho & Hb & _).
  split; [exact Ho|exact Hb].
Defined.

(** X5: a [reveal_people] that returns [True] has found exactly one
    occupant: a [Character] of the searcher's room other than the searcher,
    who was hiding at a level below [MAX_HIDE].  Only that occupant's
    concealment level is written, to 0; the searcher is told, the found one
    is told, and the room except the searcher is told, so that the found
    one hears of it twice. *)
Theorem reveal_people_found (searcher : ObjId) (w w' : World) :
  reveal_people searcher w = (Return true, w') ->
  let s := objs w !!! searcher in
  let room := objs w !!! location s in
  exists p,
    p ∈ contents room /\ is_character (objs w !!! p) /\ p <> searcher /\
    is_hiding (objs w !!! p) = true /\
    hiding (objs w !!! p) < MAX_HIDE /\
    objs w' = <[p := set_hiding 0 (objs w !!! p)]> (objs w) /\
    outbox w'
    = (outbox w
       ++ [(searcher, "You've found " +:+ key (objs w !!! p)
                      +:+ " hiding in the shadows!");
           (p, "You've been discovered by " +:+ key s)])
      ++ map (fun o => (o, key s +:+ " has found " +:+ key (objs w !!! p)
                           +:+ " hiding in the shadows!"))
             (recipients (contents room) [searcher]) /\
    p ∈ recipients (contents room) [searcher].
Proof.
  rewrite reveal_people_run. intros Hrun s room.
  destruct (filter _ _) as [|c cs] eqn:Hcs.
  { by rewrite reveal_people_loop_nobody in Hrun. }
  apply reveal_people_loop_cases in Hrun; [|done].
  destruct Hrun as [(Hr & _)|(_ & p & Hin & Hne & Hhid & Hlt & Ho & Hb)];
    [discriminate Hr|].
  rewrite <- Hcs in Hin. apply list_elem_of_filter in Hin as [Hchar Hin].
  exists p. repeat (split; [assumption|]).
  by apply elem_of_recipients.
Qed.

(** Ann picks Bob, hidden at level 1, and rolls 15. *)
Lemma reveal_people_found_witness :
  exists p, hiding (objs (bob_hidden 1 3 [1; 15]) !!! p) < MAX_HIDE /\
            objs (reveal_people 1%nat (bob_hidden 1 3 [1; 15])).2
            = <[p := set_hiding 0 (objs (bob_hidden 1 3 [1; 15]) !!! p)]>
                (objs (bob_hidden 1 3 [1; 15])).
Proof.
  assert (H : reveal_people 1%nat (bob_hidden 1 3 [1; 15])
              = (Return true, (reveal_people 1%nat (bob_hidden 1 3 [1; 15])).2))
    by reflexivity.
  destruct (reveal_people_found 1%nat _ _ H)
    as (p & _ & _ & _ & _ & Hlt & Ho & _).
  exists p. split; [exact Hlt|exact Ho].
Defined.

(** X6: with at least one [Character] in the searcher's room, as when the
    searcher is a [Character] standing in it, [search] never raises: it
    returns on every roll. *)
Theorem search_returns (searcher x : ObjId) (w : World) :
  x ∈ contents (objs w !!! location (objs w !!! searcher)) ->
  is_character (objs w !!! x) ->
  (search searcher w).1 = Return tt.
Proof.
  intros Hin Hchar. rewrite search_run.
  destruct (search_category _); try reflexivity.
  destruct (reveal_people _ _) as [r w2] eqn:Hrun.
  rewrite reveal_people_run in Hrun.
  apply reveal_people_loop_cases in Hrun.
  - by destruct Hrun as [(-> & _)|(-> & _)].
  - intros Hnil. eapply (filter_nil_not_elem_of _ _ x); [exact Hnil| |exact Hin].
    exact Hchar.
Qed.

(** Ann, a [Character], searches the room she stands in. *)
Lemma search_returns_witness :
  (search 1%nat (bob_hidden 1 3 [70; 0; 1; 3])).1 = Return tt.
Proof.
  apply (search_returns 1%nat 1%nat); [|reflexivity].
  vm_compute. apply list_elem_of_here.
Defined.

(** X7: a [search] changes at most one object of the store, somebody else
    than the searcher, whose concealment level it sets to 0: searching
    never gives the searcher's own hiding place away. *)
Theorem search_footprint (searcher : ObjId) (w : World) :
  let w' := (search searcher w).2 in
  (objs w' = objs w \/
   exists p, p <> searcher /\
             objs w' = <[p := set_hiding 0 (objs w !!! p)]> (objs w)) /\
  objs w' !!! searcher = objs w !!! searcher.
Proof.
  assert (Hfoot : objs (search searcher w).2 = objs w \/
                  exists p, p <> searcher /\
                    objs (search searcher w).2
                    = <[p := set_hiding 0 (objs w !!! p)]> (objs w)).
  { rewrite search_run.
    destruct (search_category _); try (left; reflexivity).
    destruct (reveal_people _ _) as [r w2] eqn:Hrun.
    rewrite reveal_people_run in Hrun.
    destruct (filter _ _) as [|c cs] eqn:Hcs.
    { rewrite reveal_people_loop_nobody in Hrun. inversion Hrun. by left. }
    apply reveal_people_loop_cases in Hrun; [|done].
    destruct Hrun as [(-> & Ho & _)|(-> & p & _ & Hne & _ & _ & Ho & _)].
    - left. exact Ho.
    - right. exists p. split; [exact Hne|exact Ho]. }
  simpl. split; [exact Hfoot|].
  destruct Hfoot as [->|(p & Hne & ->)]; [reflexivity|].
  by rewrite lookup_total_insert_ne.
Qed.

(** ** The two condition messages *)

(** X8: the defender and the onlookers are always told the same tier, one of
    the thirteen; and both are told "dead" exactly at a health of 1 or less,
    so that a health of exactly 1 already reads as dead. *)
Theorem health_messages_agree (o : Obj) :
  (exists t, (t <= 12)%nat /\
     tier_index self_tiers (self_health_msg o) = Some t /\
     tier_index (third_person_tiers (key o)) (health_msg o) = Some t) /\
  (self_health_msg o = "You are dead." <-> health o <= 1) /\
  (health_msg o = key o +:+ " is dead." <-> health o <= 1).
Proof.
  split; [|split].
  - exists (tier_of_health (health o)).
    split; [|split; [apply self_health_msg_tier|apply health_msg_tier]].
    unfold tier_of_health. repeat (case_bool_decide; [lia|]). lia.
  - unfold self_health_msg.
    repeat (case_bool_decide; [split; [discriminate|lia]|]).
    split; [lia|reflexivity].
  - unfold health_msg.
    repeat (case_bool_decide;
            [split; [intros Heq; apply (inj (String.append (key o))) in Heq;
                     discriminate Heq|lia]|]).
    split; [lia|reflexivity].
Qed.

(** ** Hits that are survived, and hits on the dead *)

Section MoreCombatFacts.
Variable target_msg : string -> string -> Z -> string.
Variable search_object : string -> gmap nat Obj -> list ObjId.
Variable move_to : ObjId -> list ObjId -> World -> World.

(** X9: a hit that leaves the health above 0 returns normally with the
    health lowered by exactly the damage; the defender gets the strike and
    the own-condition message, every other occupant of the room the
    third-person one, and nothing else changes.  At exactly 1 health left
    the defender is told "You are dead." although no death transition
    runs. *)
Theorem at_weapon_hit_survived (self attacker weapon : ObjId) (damage : Z)
    (w : World) :
  health (objs w !!! self) - damage > 0 ->
  let me := objs w !!! self in
  let me' := set_health (health me - damage) me in
  at_weapon_hit characters_py target_msg search_object move_to
                self attacker weapon damage w
  = (Return tt,
     mkWorld (<[self := me']> (objs w)) (tape w) (drawn w)
       ((outbox w
         ++ [(self, target_msg (key (objs w !!! attacker))
                               (key (objs w !!! weapon)) damage);
             (self, self_health_msg me')])
        ++ (map (fun o => (o, health_msg me'))
                (recipients (contents (objs w !!! location me)) [self]))))
  /\ (health me - damage = 1 -> self_health_msg me' = "You are dead.").
Proof.
  intros Hpos me me'. subst me me'. split.
  - unfold at_weapon_hit. py_unfold. simpl.
    rewrite lookup_total_insert_eq. simpl.
    rewrite Z.max_l by lia.
    rewrite (bool_decide_eq_false_2 (_ <= 0)) by lia.
    destruct (set_health_elsewhere (objs w) self
                (location (objs w !!! self))
                (health (objs w !!! self) - damage)) as (_ & Hc & _).
    simpl in Hc. rewrite Hc, <- !app_assoc. reflexivity.
  - intros H1. unfold self_health_msg. simpl. rewrite H1. reflexivity.
Qed.

(** One hit on a defender who is at health 0 or below, with a damage of at
    least 0. *)
Lemma at_weapon_hit_on_the_dead (self attacker weapon : ObjId) (damage : Z)
    (w : World) :
  health (objs w !!! self) <= 0 -> 0 <= damage ->
  exists w',
    at_weapon_hit characters_py target_msg search_object move_to
                  self attacker weapon damage w
    = (Raise (NameError "search_object"), w')
    /\ health (objs w' !!! self) = 0.
Proof.
  intros Hdead Hd. unfold at_weapon_hit, die. py_unfold. simpl.
  rewrite lookup_total_insert_eq. simpl.
  rewrite bool_decide_eq_true_2 by lia. simpl.
  eexists. split; [reflexivity|]. simpl.
  rewrite lookup_total_insert_eq. simpl. lia.
Qed.

(** X10: [at_weapon_hit] never brings a defender back: from a health of 0
    or below, after each of any number of hits of damage 0 or more the
    health is 0. *)
Theorem hits_on_the_dead (self : ObjId) (hits : list (ObjId * ObjId * Z))
    (w : World) :
  health (objs w !!! self) <= 0 ->
  Forall (fun hit => 0 <= hit.2) hits ->
  Forall (fun w' => health (objs w' !!! self) = 0)
         (hit_trace characters_py target_msg search_object move_to
                    self hits w).
Proof.
  intros Hdead Hpos. revert w Hdead.
  induction Hpos as [|[[a wp] d] hits Hd Hpos IH]; intros w Hdead;
    simpl; [constructor|]. simpl in Hd.
  destruct (at_weapon_hit_on_the_dead self a wp d w Hdead Hd)
    as (w' & Hrun & Hz).
  rewrite Hrun. simpl. constructor; [exact Hz|]. apply IH. lia.
Qed.
End MoreCombatFacts.

(** Ann's blow of 39 leaves Bob, at 40, with 1. *)
Lemma at_weapon_hit_survived_witness :
  health (objs wounded_bob !!! 2%nat) - 39 > 0 /\
  outbox (at_weapon_hit characters_py sample_target_msg no_match stay
            2%nat 1%nat 3%nat 39 wounded_bob).2
  = [(2%nat, "Ann hits you with a sword."); (2%nat, "You are dead.");
     (1%nat, "Bob is dead.")].
Proof.
  assert (H : health (objs wounded_bob !!! 2%nat) - 39 > 0) by reflexivity.
  split; [exact H|].
  destruct (at_weapon_hit_survived sample_target_msg no_match stay
              2%nat 1%nat 3%nat 39 wounded_bob H) as [-> _].
  reflexivity.
Defined.

(** Bob at health 0, hit three more times. *)
Lemma hits_on_the_dead_witness :
  Forall (fun w' => health (objs w' !!! 2%nat) = 0)
         (hit_trace characters_py sample_target_msg no_match stay 2%nat
                    three_hits (world (duel 1000 0) [])).
Proof.
  apply (hits_on_the_dead sample_target_msg no_match stay).
  - vm_compute. discriminate.
  - repeat constructor; vm_compute; discriminate.
Defined.

(** * The generator scripts *)

(** ** [escaped] and [lookup_description] *)

(** X11: [escaped] puts a backslash before every double quote and changes
    nothing else: the result is longer by the number of double quotes, each
    double quote in it follows a backslash, and a text without double
    quotes, backslashes or not, comes back as it is. *)
Theorem escaped_quotes (s : string) :
  String.length (escaped s) = (String.length s + count_dquotes s)%nat /\
  (forall i, String.get i (escaped s) = Some dquote ->
     exists j, i = S j /\ String.get j (escaped s) = Some backslash) /\
  (count_dquotes s = 0%nat -> escaped s = s).
Proof.
  split; [|split].
  - induction s as [|c s IH]; simpl; [reflexivity|].
    destruct (Ascii.eqb c dquote); simpl; rewrite IH; lia.
  - induction s as [|c s IH]; intros i Hi; simpl in *; [by destruct i|].
    destruct (Ascii.eqb c dquote) eqn:Hc.
    + destruct i as [|[|k]]; simpl in *.
      * discriminate Hi.
      * by exists 0%nat.
      * destruct (IH k Hi) as (j & -> & Hj). by exists (S (S j)).
    + destruct i as [|k]; simpl in *.
      * inversion Hi; subst c. by rewrite Ascii.eqb_refl in Hc.
      * destruct (IH k Hi) as (j & -> & Hj). by exists (S j).
  - induction s as [|c s IH]; simpl; [reflexivity|].
    destruct (Ascii.eqb c dquote); [discriminate|].
    intros H0. by rewrite IH.
Qed.

(** X12: [lookup_description] never indexes out of range: it returns a text
    exactly for the ids 1 to [len(descs)], which it reads from [descs], and
    -1 to -[len(lines)], which it reads from [lines], both counted from 1;
    for 0 and for every id beyond the tables it returns [None]. *)
Theorem lookup_description_in_range (id : Z) (descs : list (list string))
    (lines : list string) :
  (is_Some (lookup_description id descs lines)
   <-> 1 <= id <= Z.of_nat (length descs)
       \/ 1 <= - id <= Z.of_nat (length lines)) /\
  (forall d, 1 <= id -> descs !! Z.to_nat (id - 1) = Some d ->
     lookup_description id descs lines = Some (escaped (join " " d))) /\
  (forall l, 1 <= - id -> lines !! Z.to_nat (- id - 1) = Some l ->
     lookup_description id descs lines = Some (escaped l)).
Proof.
  unfold lookup_description. split; [|split].
  - repeat case_bool_decide; try (split; [by intros [? ?]|lia]).
    + rewrite fmap_is_Some. split; [lia|intros _].
      apply lookup_lt_is_Some. lia.
    + rewrite fmap_is_Some. split; [lia|intros _].
      apply lookup_lt_is_Some. lia.
  - intros d Hid Hd. apply lookup_lt_Some in Hd as Hlt.
    rewrite bool_decide_eq_false_2, !bool_decide_eq_true_2 by lia.
    by rewrite Hd.
  - intros l Hid Hl. apply lookup_lt_Some in Hl as Hlt.
    rewrite !bool_decide_eq_false_2 by lia.
    rewrite !bool_decide_eq_true_2 by lia.
    by rewrite Hl.
Qed.

(** ** [find_object] *)

(** X13: [find_object] returns the first entry with the id asked for, and
    [None] exactly when no entry has it. *)
Theorem find_object_first (objects : list ObjectEntry) (obj_id : Z) :
  match find_object objects obj_id with
  | Some obj =>
      exists before after,
        objects = before ++ obj :: after /\
        entry_id obj = obj_id /\
        Forall (fun o => entry_id o <> obj_id) before
  | None => Forall (fun o => entry_id o <> obj_id) objects
  end.
Proof.
  induction objects as [|o objects IH]; simpl; [constructor|].
  case_bool_decide as Hid.
  - by exists [], objects.
  - destruct (find_object objects obj_id) as [obj|].
    + destruct IH as (before & after & -> & Hobj & Hbefore).
      exists (o :: before), after. auto.
    + by constructor.
Qed.

(** ** [snake_case] and [camel_case] *)

Lemma lstrip_length (s : string) :
  (String.length (lstrip s) <= String.length s)%nat.
Proof.
  induction s as [|c s IH]; simpl; [lia|].
  destruct (isspace c); simpl; lia.
Qed.

Lemma rstrip_length (s : string) :
  (String.length (rstrip s) <= String.length s)%nat.
Proof.
  induction s as [|c s IH]; simpl; [lia|].
  destruct (rstrip s); [destruct (isspace c)|]; simpl in *; lia.
Qed.

Lemma strip_length (s : string) :
  (String.length (strip s) <= String.length s)%nat.
Proof.
  unfold strip. pose proof (rstrip_length (lstrip s)).
  pose proof (lstrip_length s). lia.
Qed.

Lemma upper_not_snake (c : ascii) :
  Ascii.eqb c " " || Ascii.eqb c "-" || Ascii.eqb c "'" = false ->
  not_snake (upper c) = false.
Proof.
  destruct c as [[] [] [] [] [] [] [] []]; vm_compute;
    intros H; (reflexivity || discriminate H).
Qed.

Lemma snake_chars_alphabet (s : string) (c : ascii) :
  In c (String.list_ascii_of_string (snake_chars s)) -> not_snake c = false.
Proof.
  induction s as [|a s IH]; simpl; [tauto|].
  destruct (Ascii.eqb a " " || Ascii.eqb a "-") eqn:Hsep; simpl.
  - intros [<-|Hin]; [reflexivity|by apply IH].
  - destruct (Ascii.eqb a "'") eqn:Hq; simpl; [exact IH|].
    intros [<-|Hin]; [|by apply IH].
    apply upper_not_snake. by rewrite Hsep, Hq.
Qed.

Lemma snake_chars_length (s : string) :
  (String.length (snake_chars s) <= String.length s)%nat.
Proof.
  induction s as [|a s IH]; simpl; [lia|].
  destruct (Ascii.eqb a " " || Ascii.eqb a "-"); simpl; [lia|].
  destruct (Ascii.eqb a "'"); simpl; lia.
Qed.

(** X14: the result of [snake_case] on an ASCII name has no space, no
    hyphen, no apostrophe and no lower-case letter, and is at most as long
    as the name. *)
Theorem snake_case_alphabet (s : string) (c : ascii) :
  ascii_text s ->
  (In c (String.list_ascii_of_string (snake_case s)) ->
   c <> " "%char /\ c <> "-"%char /\ c <> "'"%char /\
   ~ (97 <= nat_of_ascii c <= 122)%nat) /\
  (String.length (snake_case s) <= String.length s)%nat.
Proof.
  intros _. split.
  - intros Hin. apply snake_chars_alphabet in Hin.
    unfold not_snake in Hin.
    apply orb_false_elim in Hin as [Hin Hlow].
    apply orb_false_elim in Hin as [Hin Hq].
    apply orb_false_elim in Hin as [Hsp Hhy].
    repeat split.
    + intros ->. discriminate Hsp.
    + intros ->. discriminate Hhy.
    + intros ->. discriminate Hq.
    + intros [H1 H2]. apply Nat.leb_le in H1, H2.
      by rewrite H1, H2 in Hlow.
  - unfold snake_case. pose proof (snake_chars_length (strip s)).
    pose proof (strip_length s). lia.
Qed.

(** The name of the docstring. *)
Lemma snake_case_alphabet_witness :
  ascii_text "Hammer of the gods" /\
  snake_case "Hammer of the gods" = "HAMMER_OF_THE_GODS" /\
  (String.length (snake_case "Hammer of the gods") <= 18)%nat.
Proof.
  assert (H : ascii_text "Hammer of the gods").
  { unfold ascii_text. simpl. repeat constructor. }
  split; [exact H|]. split; [reflexivity|].
  exact (proj2 (snake_case_alphabet "Hammer of the gods" "a" H)).
Defined.

Lemma isspace_space (c : ascii) : Ascii.eqb c " " = true -> isspace c = true.
Proof. intros Hc. apply Ascii.eqb_eq in Hc. by subst c. Qed.

Lemma rstrip_ends (s : string) : ends_with_space (rstrip s) = false.
Proof.
  induction s as [|c s IH]; simpl; [reflexivity|].
  destruct (rstrip s) as [|a kept] eqn:Hr.
  - destruct (isspace c) eqn:Hc; simpl; [reflexivity|].
    destruct (Ascii.eqb c " ") eqn:Hsp; [|reflexivity].
    apply isspace_space in Hsp. congruence.
  - exact IH.
Qed.

Lemma rstrip_empty (s : string) :
  rstrip s = EmptyString
  <-> Forall (fun c => isspace c = true) (String.list_ascii_of_string s).
Proof.
  induction s as [|c s IH]; simpl; [by split; [constructor|]|].
  destruct (rstrip s) as [|a kept].
  - destruct (isspace c) eqn:Hc.
    + split; [intros _|reflexivity]. constructor; [exact Hc|by apply IH].
    + split; [discriminate|]. intros H. inversion H; congruence.
  - split; [discriminate|]. intros H. inversion H; subst.
    by apply IH in H3.
Qed.

Lemma lstrip_cases (s : string) :
  (lstrip s = EmptyString /\
   Forall (fun c => isspace c = true) (String.list_ascii_of_string s))
  \/ (exists c rest, lstrip s = String c rest /\ isspace c = false /\
        ~ Forall (fun c => isspace c = true) (String.list_ascii_of_string s)).
Proof.
  induction s as [|c s IH]; simpl; [left; by split; [|constructor]|].
  destruct (isspace c) eqn:Hc.
  - destruct IH as [(-> & Hall)|(a & rest & -> & Ha & Hn)].
    + left. split; [reflexivity|by constructor].
    + right. exists a, rest. repeat split; [exact Ha|].
      intros H. inversion H; subst. contradiction.
  - right. exists c, s. repeat split; [exact Hc|].
    intros H. inversion H; congruence.
Qed.

Lemma camel_rest_returns (s : string) :
  (ends_with_space s = false ->
   exists t, camel_rest s = Return t /\
             (String.length t <= String.length s)%nat) /\
  (forall c, ends_with_space (String c s) = false ->
   exists t, camel_rest (String c s) = Return t /\
             (String.length t <= S (String.length s))%nat).
Proof.
  induction s as [|d s [IH1 IH2]].
  - split; [intros _; by exists EmptyString|].
    intros c Hc. simpl in *. rewrite Hc.
    destruct (Ascii.eqb c "'"); eexists; (split; [reflexivity|simpl; lia]).
  - split; [apply IH2|].
    intros c Hc.
    assert (Hd : ends_with_space (String d s) = false) by exact Hc.
    change (camel_rest (String c (String d s)))
      with (if Ascii.eqb c " "
            then then_prepend (upper d) (camel_rest s)
            else if Ascii.eqb c "'" then camel_rest (String d s)
                 else then_prepend c (camel_rest (String d s))).
    destruct (IH2 d Hd) as (t2 & Ht2 & Hl2).
    destruct (Ascii.eqb c " ").
    + assert (Hs : ends_with_space s = false \/ s = EmptyString).
      { destruct s; [by right|by left]. }
      destruct Hs as [Hs| ->].
      * destruct (IH1 Hs) as (t1 & -> & Hl1). simpl.
        eexists. split; [reflexivity|simpl; lia].
      * simpl. eexists. split; [reflexivity|simpl; lia].
    + destruct (Ascii.eqb c "'").
      * exists t2. split; [exact Ht2|simpl in *; lia].
      * rewrite Ht2. simpl. eexists. split; [reflexivity|simpl in *; lia].
Qed.

(** X15: [camel_case] raises [IndexError] exactly on a name that is empty
    or all white space; on every other ASCII name it returns a text that
    starts with the first character of the stripped name in upper case and
    is at most as long as the stripped name. *)
Theorem camel_case_blank (s : string) :
  ascii_text s ->
  (camel_case s = Raise IndexError
   <-> Forall (fun c => isspace c = true) (String.list_ascii_of_string s)) /\
  (~ Forall (fun c => isspace c = true) (String.list_ascii_of_string s) ->
   exists c rest t,
     strip s = String c rest /\
     camel_case s = Return (String (upper c) t) /\
     (String.length t <= String.length rest)%nat).
Proof.
  intros _.
  assert (Hgood : ~ Forall (fun c => isspace c = true)
                      (String.list_ascii_of_string s) ->
                  exists c rest t,
                    strip s = String c rest /\
                    camel_case s = Return (String (upper c) t) /\
                    (String.length t <= String.length rest)%nat).
  { intros Hn. unfold camel_case, strip.
    destruct (lstrip_cases s) as [(_ & Hall)|(a & r & Hl & Ha & _)];
      [contradiction|].
    rewrite Hl.
    pose proof (rstrip_ends (String a r)) as Hends.
    destruct (rstrip (String a r)) as [|c rest] eqn:Hr.
    { apply rstrip_empty in Hr. inversion Hr; congruence. }
    assert (Hrest : exists t, camel_rest rest = Return t /\
                      (String.length t <= String.length rest)%nat).
    { destruct rest as [|d rest']; [by exists EmptyString|].
      by apply camel_rest_returns. }
    destruct Hrest as (t & Ht & Hlen).
    exists c, rest, t. rewrite Ht. by simpl. }
  split; [|exact Hgood].
  split.
  - intros Hraise.
    destruct (decide (Forall (fun c => isspace c = true)
                        (String.list_ascii_of_string s))) as [Hall|Hn];
      [exact Hall|].
    destruct (Hgood Hn) as (c & rest & t & _ & Hret & _). congruence.
  - intros Hall. unfold camel_case, strip.
    destruct (lstrip_cases s) as [(-> & _)|(_ & _ & _ & _ & Hn)];
      [reflexivity|contradiction].
Qed.

(** The name of the docstring, and a blank name. *)
Lemma camel_case_blank_witness :
  ascii_text "Hammer of the gods" /\ ascii_text "   " /\
  camel_case "Hammer of the gods" = Return "HammerOfTheGods" /\
  camel_case "   " = Raise IndexError.
Proof.
  assert (H1 : ascii_text "Hammer of the gods").
  { unfold ascii_text. simpl. repeat constructor. }
  assert (H2 : ascii_text "   ").
  { unfold ascii_text. simpl. repeat constructor. }
  split; [exact H1|]. split; [exact H2|]. split; [reflexivity|].
  apply (proj1 (camel_case_blank "   " H2)). simpl. repeat constructor.
Defined.

(** * Bags of gold *)







